(** * mahjongAI: the report and chart pipelines (res.py, plots.py, viz.py)

    A shallow embedding of the aggregation code of the three scripts and
    the properties of the specification that concern it.

    Numbers.  The tables hold integer counts and float64 percentages.
    Counts are [Z].  A finite float64 is modelled by the rational it
    denotes ([Q]): comparisons against the thresholds are then exact, and
    rounding of products and quotients is not modelled.  The special values
    that numpy's true division produces on a zero denominator (inf, nan)
    are kept, in [Float64.t].  Only the error bars of Figure 1 need a
    square root; they are computed in [R].  Where the digits printed are
    what matters (the percentages of the quadrant analysis), the value is
    computed in binary64 itself and formatted to one decimal
    ([Binary64], [Printed]).

    Tables.  A pandas DataFrame is the list of its rows, in file order;
    a column is the [map] of a field, a boolean mask is a [filter], and
    [.iloc[0]] is the head of the list. *)

From Stdlib Require Import ZArith NArith QArith Qreals Reals Lqa Lra Lia.
From Stdlib Require Import List String Bool.
From Stdlib Require Import Qabs Qround Sorted.
From Stdlib Require PrimFloat FloatOps SpecFloat Uint63.
Import ListNotations.

Open Scope string_scope.
Open Scope list_scope.
Open Scope Q_scope.

(** ** Comparisons on table values *)

Definition Qlt_bool (x y : Q) : bool :=
  (Qnum x * QDen y <? Qnum y * QDen x)%Z.

Definition Qge_bool (x y : Q) : bool := Qle_bool y x.

Notation "x <? y" := (Qlt_bool x y) (at level 70, no associativity) : Q_scope.
Notation "x <=? y" := (Qle_bool x y) (at level 70, no associativity) : Q_scope.
Notation "x >=? y" := (Qge_bool x y) (at level 70, no associativity) : Q_scope.

(** ** float64 results of numpy arithmetic *)

Module Float64.

Inductive t : Type :=
| Finite (q : Q)
| Inf (negative : bool)
| NaN.

Definition is_zero (q : Q) : bool := Qeq_bool q 0.

(** [a / b] on two numpy integers (the elements of a row taken with
    [.iloc[0]], the result of [Series.sum()]): a float64.  A zero
    denominator gives nan or a signed infinity, with a RuntimeWarning; it
    does not raise. *)
Definition true_divide (a b : Z) : t :=
  if (b =? 0)%Z then
    if (a =? 0)%Z then NaN else Inf (a <? 0)%Z
  else Finite (inject_Z a / inject_Z b).

Definition mul (x y : t) : t :=
  match x, y with
  | NaN, _ | _, NaN => NaN
  | Finite a, Finite b => Finite (a * b)
  | Inf s, Inf s' => Inf (xorb s s')
  | Inf s, Finite b | Finite b, Inf s =>
      if is_zero b then NaN else Inf (xorb s (b <? 0))
  end.

Definition add (x y : t) : t :=
  match x, y with
  | NaN, _ | _, NaN => NaN
  | Finite a, Finite b => Finite (a + b)
  | Inf s, Inf s' => if Bool.eqb s s' then Inf s else NaN
  | Inf s, Finite _ | Finite _, Inf s => Inf s
  end.

Definition opp (x : t) : t :=
  match x with
  | Finite a => Finite (- a)
  | Inf s => Inf (negb s)
  | NaN => NaN
  end.

Definition sub (x y : t) : t := add x (opp y).

Definition of_Z (n : Z) : t := Finite (inject_Z n).

(** The value is an ordinary number worth [q]. *)
Definition is_value (x : t) (q : Q) : Prop :=
  match x with
  | Finite a => a == q
  | _ => False
  end.

End Float64.

(** ** What the scripts print *)

Inductive line : Type :=
| Warning (p1_type p2_type : string)
    (* "Warning: No data for {p1_type} vs {p2_type}" *)
| Overlap (label : string) (overlap : Q)
    (* "  {label}: {overlap:.1f}%" *)
| Range (lo hi : Q).
    (* "Range: {min:.1f}% - {max:.1f}%" *)

Definition is_warning (l : line) : bool :=
  match l with Warning _ _ => true | _ => false end.

(** A Python computation that may raise. *)
Inductive result (A : Type) : Type :=
| Ok (a : A)
| Raise (exn : string).
Arguments Ok {A} a.
Arguments Raise {A} exn.

(** Python's [min] and [max] of a list: ValueError on the empty list, the
    first extremal element otherwise. *)
Definition py_min (l : list Q) : result Q :=
  match l with
  | [] => Raise "ValueError"
  | x :: tl => Ok (fold_left (fun m y => if y <? m then y else m) tl x)
  end.

Definition py_max (l : list Q) : result Q :=
  match l with
  | [] => Raise "ValueError"
  | x :: tl => Ok (fold_left (fun m y => if m <? y then y else m) tl x)
  end.

(** ** viz.py: the draw-detail table *)

Module Viz.

(** One row of pattern_overlap_details.csv (one drawn game). *)
Record DrawDetailRow : Type := {
  p1_type : string;
  p2_type : string;
  player_progress : Q;
  opponent_progress : Q;
  overlap_pct : Q;
  overlap_category : string;
  final_turn : Z
}.

Definition DataFrame := list DrawDetailRow.

Definition set_player_progress (f : Q -> Q) (r : DrawDetailRow) : DrawDetailRow :=
  {| p1_type := p1_type r; p2_type := p2_type r;
     player_progress := f (player_progress r);
     opponent_progress := opponent_progress r;
     overlap_pct := overlap_pct r; overlap_category := overlap_category r;
     final_turn := final_turn r |}.

Definition set_opponent_progress (f : Q -> Q) (r : DrawDetailRow) : DrawDetailRow :=
  {| p1_type := p1_type r; p2_type := p2_type r;
     player_progress := player_progress r;
     opponent_progress := f (opponent_progress r);
     overlap_pct := overlap_pct r; overlap_category := overlap_category r;
     final_turn := final_turn r |}.

(** [Series.max()]; [None] is the nan of a column without rows. *)
Definition series_max (col : list Q) : option Q :=
  match col with
  | [] => None
  | x :: tl => Some (fold_left (fun m y => if m <? y then y else m) tl x)
  end.

(** [nan <= 1.0] is False. *)
Definition max_le (m : option Q) (bound : Q) : bool :=
  match m with
  | Some v => v <=? bound
  | None => false
  end.

(** [load_data], after [pd.read_csv]. *)
Definition load_data (df : DataFrame) : DataFrame :=
  if max_le (series_max (map player_progress df)) 1 then
    let df := map (set_player_progress (fun v => v * 100)) df in
    let df := map (set_opponent_progress (fun v => v * 100)) df in
    df
  else df.

(** The columns that [load_data] does not touch. *)
Definition other_columns (r : DrawDetailRow) : string * string * Q * string * Z :=
  (p1_type r, p2_type r, overlap_pct r, overlap_category r, final_turn r).

(** The values of the ['draw_type'] column written by
    [plot_symmetric_analysis]: 'Unknown', 'Both Stuck (<50%)',
    'Both Mid (50-70%)', 'Both High (>=70%)', 'P1 Ahead', 'P2 Ahead'. *)
Inductive draw_type_label : Type :=
| Unknown | BothStuck | BothMid | BothHigh | P1Ahead | P2Ahead.

(** [df.loc[mask, 'draw_type'] = v], on one row. *)
Definition loc_assign (mask : bool) (v cur : draw_type_label) : draw_type_label :=
  if mask then v else cur.

(** The assignments of viz.py lines 247-253, in order, for a row with
    progress values [p1] (player_progress) and [p2] (opponent_progress). *)
Definition draw_type (p1 p2 : Q) : draw_type_label :=
  let t := Unknown in
  let t := loc_assign ((p1 <? 50) && (p2 <? 50)) BothStuck t in
  let t := loc_assign ((p1 >=? 50) && (p1 <? 70) &&
                       (p2 >=? 50) && (p2 <? 70)) BothMid t in
  let t := loc_assign ((p1 >=? 70) && (p2 >=? 70)) BothHigh t in
  let t := loc_assign ((p1 >=? 70) && (p2 <? 70)) P1Ahead t in
  let t := loc_assign ((p1 <? 70) && (p2 >=? 70)) P2Ahead t in
  t.

Definition categorize (df : DataFrame) : list draw_type_label :=
  map (fun r => draw_type (player_progress r) (opponent_progress r)) df.

(** One of the five categories, as opposed to the initial 'Unknown'. *)
Definition is_category (t : draw_type_label) : bool :=
  match t with Unknown => false | _ => true end.

(** [mask.sum()]: the number of rows where the mask holds. *)
Definition mask_sum (mask : DrawDetailRow -> bool) (df : DataFrame) : Z :=
  fold_right (fun r acc => (Z.b2z (mask r) + acc)%Z) 0%Z df.

Definition len (df : DataFrame) : Z := Z.of_nat (List.length df).

(** The quadrant masks of [generate_summary_stats], lines 301-304. *)
Definition is_both_high (r : DrawDetailRow) : bool :=
  (player_progress r >=? 70) && (opponent_progress r >=? 70).
Definition is_both_stuck (r : DrawDetailRow) : bool :=
  (player_progress r <? 70) && (opponent_progress r <? 70).
Definition is_p1_ahead (r : DrawDetailRow) : bool :=
  (player_progress r >=? 70) && (opponent_progress r <? 70).
Definition is_p2_ahead (r : DrawDetailRow) : bool :=
  (player_progress r <? 70) && (opponent_progress r >=? 70).

Definition both_high (df : DataFrame) : Z := mask_sum is_both_high df.
Definition both_stuck (df : DataFrame) : Z := mask_sum is_both_stuck df.
Definition p1_ahead (df : DataFrame) : Z := mask_sum is_p1_ahead df.
Definition p2_ahead (df : DataFrame) : Z := mask_sum is_p2_ahead df.

End Viz.

(** ** binary64 arithmetic and the one-decimal format *)

Module Binary64.

Definition float : Set := PrimFloat.float.

(** An integer of the table as a float64 (exact for counts, which are
    non-negative and far below 2^53). *)
Definition of_count (n : Z) : float := PrimFloat.of_uint63 (Uint63.of_Z n).

(** The rational a float denotes; [None] for nan and the infinities. *)
Definition to_Q (x : float) : option Q :=
  match FloatOps.Prim2SF x with
  | SpecFloat.S754_zero _ => Some 0
  | SpecFloat.S754_finite s m e =>
      Some ((if s then - (1) else 1) * (inject_Z (Zpos m) * 2 ^ e))
  | _ => None
  end.

(** The nearest integer, ties to the even one. *)
Definition round_half_even (q : Q) : Z :=
  let f := Qfloor q in
  match Qcompare (q - inject_Z f) (1 # 2) with
  | Lt => f
  | Gt => (f + 1)%Z
  | Eq => if Z.even f then f else (f + 1)%Z
  end.

(** [f"{x:.1f}"]: the decimal with one digit after the point that is
    nearest to the value of the float, as a number of tenths; [None] is
    the text "nan" or "inf". *)
Definition format_1f (x : float) : option Z :=
  option_map (fun q => round_half_even (q * 10)) (to_Q x).

End Binary64.

(** ** viz.py: the percentages of the quadrant analysis as printed *)

Module Printed.
Import Viz.

(** [count/len(df)*100] as the f-strings of lines 307-310 compute it. *)
Definition quadrant_pct (count : Z) (df : DataFrame) : Binary64.float :=
  PrimFloat.mul
    (PrimFloat.div (Binary64.of_count count) (Binary64.of_count (len df)))
    (Binary64.of_count 100).

(** The figure printed next to the count, in tenths of a percent. *)
Definition quadrant_text (count : Z) (df : DataFrame) : option Z :=
  Binary64.format_1f (quadrant_pct count df).

End Printed.

(** ** The exact binomial test *)

Module Binom.

(** Pascal's rule, for reference: the number of [k]-subsets of [n]. *)
Fixpoint choose (n k : nat) : N :=
  match k, n with
  | O, _ => 1%N
  | S _, O => 0%N
  | S k', S n' => (choose n' k' + choose n' k)%N
  end.

(** One row of Pascal's triangle from the row above: each entry is the
    sum of its two upper neighbours ([prev] is the left one). *)
Fixpoint pascal_next (prev : N) (row : list N) : list N :=
  match row with
  | [] => [prev]
  | x :: tl => (prev + x)%N :: pascal_next x tl
  end.

Fixpoint pascal_row (n : nat) : list N :=
  match n with
  | O => [1%N]
  | S m => pascal_next 0%N (pascal_row m)
  end.

Definition sumN (l : list N) : N := fold_right N.add 0%N l.

(** The number of outcomes of [n] fair tosses with at least [k] heads. *)
Definition upper_tail (n k : nat) : N := sumN (skipn k (pascal_row n)).

(** Modelled from the spec: [scipy.stats.binomtest(k, n, p=0.5,
    alternative='greater').pvalue] is a library function whose code is not
    part of the repository.  Following section 4.3 it is the exact upper
    tail of the binomial distribution with success probability one half:
    the probability of at least [k] wins in [n] decisive games,
    [sum (i = k..n) C(n,i) / 2^n].  The argument checks of the library
    are outside the model. *)
Definition pvalue (k n : nat) : Q :=
  inject_Z (Z.of_N (upper_tail n k)) / inject_Z (2 ^ Z.of_nat n).

Definition binomtest_greater (k n : Z) : Q :=
  pvalue (Z.to_nat k) (Z.to_nat n).

End Binom.

(** ** The results table (res/player_comparison_results.csv) *)

Module Table.

Record ResultRow : Type := {
  player1_type : string;
  player2_type : string;
  config_name : string;
  total_games : Z;
  p1_wins : Z;
  p2_wins : Z;
  draws : Z;
  decisive_games : Z;
  p1_win_rate_decisive : Q;
  p2_win_rate_decisive : Q;
  draw_pct : Q;
  draw_pattern_overlap_pct : Q;
  reshuffle_pct : Q;
  games_reshuffled : Z;
  wins_after_reshuffle : Z;
  draw_both_high_progress : Z;
  draw_both_stuck : Z;
  draw_similar_progress : Z;
  draw_p1_stuck_p2_ahead : Z;
  draw_p2_stuck_p1_ahead : Z;
  draw_avg_p1_progress : Q;
  draw_avg_p2_progress : Q
}.

Definition DataFrame := list ResultRow.

(** [df[df['config_name'] == 'neither']] *)
Definition neither (df : DataFrame) : DataFrame :=
  filter (fun r => (config_name r =? "neither")%string) df.

(** [df[(df['player1_type'] == p1) & (df['player2_type'] == p2)]] *)
Definition pairing (df : DataFrame) (p1 p2 : string) : DataFrame :=
  filter (fun r => (player1_type r =? p1)%string && (player2_type r =? p2)%string) df.

(** [Series.sum()] of an integer column. *)
Definition column_sum (col : ResultRow -> Z) (df : DataFrame) : Z :=
  fold_right Z.add 0%Z (map col df).

End Table.

(** ** res.py: the statistics report *)

Module Res.
Import Table.

(** [(count/total)*100] as it is written in the f-strings. *)
Definition pct_of (count total : Z) : Float64.t :=
  Float64.mul (Float64.true_divide count total) (Float64.of_Z 100).

(** *** Bayesian vs Pure Random, all configurations (lines 128-146) *)

Record pooled_report : Type := {
  total_p1_wins : Z;
  total_p2_wins : Z;
  total_decisive : Z;
  p_value : Q;
  win_rate : Float64.t
}.

Definition pooled (df : DataFrame) (p1 p2 : string) : pooled_report :=
  let bpr_all := pairing df p1 p2 in
  let total_p1_wins := column_sum p1_wins bpr_all in
  let total_p2_wins := column_sum p2_wins bpr_all in
  let p_value_bpr :=
    if (total_p1_wins + total_p2_wins >? 0)%Z then
      Binom.binomtest_greater total_p1_wins (total_p1_wins + total_p2_wins)
    else 1 in
  {| total_p1_wins := total_p1_wins;
     total_p2_wins := total_p2_wins;
     total_decisive := (total_p1_wins + total_p2_wins)%Z;
     p_value := p_value_bpr;
     win_rate := pct_of total_p1_wins (total_p1_wins + total_p2_wins) |}.

Definition bayesian_vs_pure_random (df : DataFrame) : pooled_report :=
  pooled df "bayesian" "pure_random".

(** *** Section 4.3.1, strategic agents (lines 251-269) *)

Definition strategic_pairs : list (string * string * string) :=
  [ ("bayesian", "bayesian", "B-B");
    ("bayesian", "greedy", "B-G");
    ("greedy", "greedy", "G-G") ].

(** One turn of the loop: the list of overlaps and the lines printed. *)
Definition overlap_step (neither : DataFrame)
    (st : list Q * list line) (p : string * string * string) : list Q * list line :=
  let '(overlaps, out) := st in
  let '(p1, p2, label) := p in
  let row_data := pairing neither p1 p2 in
  match row_data with
  | row :: _ =>
      let overlap := draw_pattern_overlap_pct row in
      (overlaps ++ [overlap], out ++ [Overlap label overlap])
  | [] => (overlaps, out)
  end.

Definition overlap_loop (neither : DataFrame)
    (pairs : list (string * string * string)) : list Q * list line :=
  fold_left (overlap_step neither) pairs ([], []).

(** The loop and the "Range" line after it. *)
Definition strategic_overlap (df : DataFrame) : result (list Q * list line) :=
  let '(overlaps_strategic, out) := overlap_loop (neither df) strategic_pairs in
  match py_min overlaps_strategic, py_max overlaps_strategic with
  | Ok lo, Ok hi => Ok (overlaps_strategic, out ++ [Range lo hi])
  | Raise e, _ | _, Raise e => Raise e
  end.

(** *** Section 4.3.2, progress at draw (lines 294-324) *)

Record progress_report : Type := {
  total_draws : Z;
  both_high_pct : Float64.t;
  both_stuck_pct : Float64.t;
  similar_pct : Float64.t;
  asymmetric : Z;
  asymmetric_pct : Float64.t
}.

(** [None]: the block is skipped ([len(bb_neither) > 0] fails). *)
Definition progress_at_draw (bb_neither : DataFrame) : option progress_report :=
  match bb_neither with
  | [] => None
  | row :: _ =>
      let total_draws := draws row in
      let asymmetric := (draw_p1_stuck_p2_ahead row + draw_p2_stuck_p1_ahead row)%Z in
      Some {| total_draws := total_draws;
              both_high_pct := pct_of (draw_both_high_progress row) total_draws;
              both_stuck_pct := pct_of (draw_both_stuck row) total_draws;
              similar_pct := pct_of (draw_similar_progress row) total_draws;
              asymmetric := asymmetric;
              asymmetric_pct := pct_of asymmetric total_draws |}
  end.

Definition progress_at_draw_section (df : DataFrame) : option progress_report :=
  progress_at_draw (pairing (neither df) "bayesian" "bayesian").

(** *** Section 4.3.3, resolution after reshuffle (lines 342-357) *)

Record resolution_report : Type := {
  resolution_pct : Float64.t;
  draw_again_pct : Float64.t
}.

(** [None]: nothing is computed or printed (one of the two [if]s fails). *)
Definition reshuffle_resolution (bg_neither : DataFrame) : option resolution_report :=
  match bg_neither with
  | [] => None
  | row :: _ =>
      if (games_reshuffled row >? 0)%Z then
        let resolution_pct := pct_of (wins_after_reshuffle row) (games_reshuffled row) in
        let draw_again_pct := Float64.sub (Float64.of_Z 100) resolution_pct in
        Some {| resolution_pct := resolution_pct; draw_again_pct := draw_again_pct |}
      else None
  end.

Definition reshuffle_resolution_section (df : DataFrame) : option resolution_report :=
  reshuffle_resolution (pairing (neither df) "bayesian" "greedy").

End Res.

(** ** plots.py: Figure 1, win rates with error bars *)

Module Plots.
Import Table.

Definition pairing_configs : list (string * string) :=
  [ ("bayesian", "bayesian");
    ("bayesian", "greedy");
    ("bayesian", "random_commit");
    ("bayesian", "pure_random");
    ("greedy", "greedy");
    ("greedy", "random_commit");
    ("greedy", "pure_random") ].

(** Modelled from the spec: the columns [p1_win_rate_decisive] and
    [p2_win_rate_decisive] are written by the benchmark that produces the
    table, which is not among these sources.  Section 4.3 defines the win
    rate as 100 * wins / decisive_games, and 0 without decisive games. *)
Definition win_rate_decisive (wins decisive_games : Z) : Q :=
  if (decisive_games =? 0)%Z then 0
  else 100 * inject_Z wins / inject_Z decisive_games.

(** [1.96 * np.sqrt(p * (1 - p) / decisive_games) * 100] with
    [p = win_rate / 100]. *)
Definition ci95 (win_rate : Q) (decisive_games : Z) : R :=
  let p := (Q2R win_rate / 100)%R in
  (1.96 * sqrt (p * (1 - p) / IZR decisive_games) * 100)%R.

(** The error bar of one side (lines 87-96). *)
Definition error_bar (win_rate : Q) (decisive_games : Z) : R :=
  if (decisive_games >? 0)%Z then ci95 win_rate decisive_games else 0%R.

(** The four series of the figure and the lines printed on the way. *)
Record series : Type := {
  s_p1_wins : list R;
  s_p2_wins : list R;
  s_p1_errors : list R;
  s_p2_errors : list R;
  s_out : list line
}.

Definition empty_series : series :=
  {| s_p1_wins := []; s_p2_wins := []; s_p1_errors := []; s_p2_errors := [];
     s_out := [] |}.

(** One turn of the loop of lines 74-102. *)
Definition winrate_step (neither : DataFrame) (st : series) (p : string * string) : series :=
  let '(p1_type, p2_type) := p in
  let row := pairing neither p1_type p2_type in
  match row with
  | r :: _ =>
      let p1_win_rate := p1_win_rate_decisive r in
      let p2_win_rate := p2_win_rate_decisive r in
      let decisive_games := decisive_games r in
      {| s_p1_wins := s_p1_wins st ++ [Q2R p1_win_rate];
         s_p2_wins := s_p2_wins st ++ [Q2R p2_win_rate];
         s_p1_errors := s_p1_errors st ++ [error_bar p1_win_rate decisive_games];
         s_p2_errors := s_p2_errors st ++ [error_bar p2_win_rate decisive_games];
         s_out := s_out st |}
  | [] =>
      {| s_p1_wins := s_p1_wins st ++ [0%R];
         s_p2_wins := s_p2_wins st ++ [0%R];
         s_p1_errors := s_p1_errors st ++ [0%R];
         s_p2_errors := s_p2_errors st ++ [0%R];
         s_out := s_out st ++ [Warning p1_type p2_type] |}
  end.

Definition winrate_loop (neither : DataFrame) (pairs : list (string * string)) : series :=
  fold_left (winrate_step neither) pairs empty_series.

Definition figure1 (df : DataFrame) : series :=
  winrate_loop (neither df) pairing_configs.

End Plots.

(** ** res.py: the other sections of the report *)

Module Report.
Import Table.

(** *** Significance text (lines 50-57) *)

(** "p < 0.001", "p < 0.01", "p < 0.05" or "p = {p_value:.3f}". *)
Inductive sig_text : Type :=
| P_lt_001
| P_lt_01
| P_lt_05
| P_eq (p_value : Q).

Definition sig_text_of (p_value : Q) : sig_text :=
  if p_value <? 0.001 then P_lt_001
  else if p_value <? 0.01 then P_lt_01
  else if p_value <? 0.05 then P_lt_05
  else P_eq p_value.

(** The test of line 40 followed by the text of lines 50-57. *)
Definition significance (p1_wins decisive : Z) : sig_text :=
  let p_value := Binom.binomtest_greater p1_wins decisive in
  sig_text_of p_value.

(** How strong the printed statement is: 0 for the plain value. *)
Definition sig_rank (s : sig_text) : nat :=
  match s with
  | P_eq _ => 0
  | P_lt_05 => 1
  | P_lt_01 => 2
  | P_lt_001 => 3
  end.

(** *** The row used for a pairing *)

(** [.iloc[0]] of a selection that was tested non-empty. *)
Definition iloc0 (sel : DataFrame) : option ResultRow := hd_error sel.

(** *** All Bayesian vs Greedy configurations (lines 67-105) *)

(** The loop of lines 70-76: the win rates and draw rates of the
    configurations that have decisive games. *)
Definition win_rates_step (st : list Q * list Q) (row : ResultRow) : list Q * list Q :=
  let '(win_rates, draw_rates) := st in
  if (decisive_games row >? 0)%Z then
    let wr := p1_win_rate_decisive row in
    (win_rates ++ [wr], draw_rates ++ [draw_pct row])
  else (win_rates, draw_rates).

Definition win_rates_loop (bg_all : DataFrame) : list Q * list Q :=
  fold_left win_rates_step bg_all ([], []).

(** [np.mean]: nan on an empty list. *)
Definition np_mean (l : list Q) : Float64.t :=
  match l with
  | [] => Float64.NaN
  | _ => Float64.Finite (fold_right Qplus 0 l / inject_Z (Z.of_nat (List.length l)))
  end.

Fixpoint insert_sorted (x : Q) (l : list Q) : list Q :=
  match l with
  | [] => [x]
  | y :: tl => if x <=? y then x :: l else y :: insert_sorted x tl
  end.

Definition sorted (l : list Q) : list Q := fold_right insert_sorted [] l.

(** [np.median]: the middle of the sorted values, or the mean of the two
    middle ones; nan on an empty list. *)
Definition np_median (l : list Q) : Float64.t :=
  match l with
  | [] => Float64.NaN
  | _ =>
      let s := sorted l in
      let n := List.length l in
      if Nat.even n then
        Float64.Finite ((nth (n / 2 - 1) s 0 + nth (n / 2) s 0) / 2)
      else Float64.Finite (nth (n / 2) s 0)
  end.

(** The three ranges of lines 86-88. *)
Definition clustered_52_68 (win_rates : list Q) : list Q :=
  filter (fun wr => (52 <=? wr) && (wr <=? 68)) win_rates.
Definition below_52 (win_rates : list Q) : list Q :=
  filter (fun wr => wr <? 52) win_rates.
Definition above_68 (win_rates : list Q) : list Q :=
  filter (fun wr => 68 <? wr) win_rates.

(** [l.index(x)]: the position of the first element equal to [x];
    [None] is the ValueError of an absent value. *)
Fixpoint index (x : Q) (l : list Q) : option nat :=
  match l with
  | [] => None
  | y :: tl => if Qeq_bool y x then Some O else option_map S (index x tl)
  end.

(** Lines 100-101: [max_idx = win_rates.index(max(win_rates))] and
    [max_row = bg_all.iloc[max_idx]]. *)
Definition highest_config (bg_all : DataFrame) (win_rates : list Q) : result ResultRow :=
  match py_max win_rates with
  | Raise e => Raise e
  | Ok m =>
      match index m win_rates with
      | None => Raise "ValueError"
      | Some max_idx =>
          match nth_error bg_all max_idx with
          | None => Raise "IndexError"
          | Some max_row => Ok max_row
          end
      end
  end.

Record win_rate_stats : Type := {
  configurations : nat;
  minimum : Q;
  maximum : Q;
  mean : Float64.t;
  median : Float64.t;
  n_below_52 : nat;
  n_52_68 : nat;
  n_above_68 : nat;
  max_row : ResultRow
}.

(** The whole block; [Ok None] when [if win_rates:] fails. *)
Definition win_rate_section (df : DataFrame) : result (option win_rate_stats) :=
  let bg_all := pairing df "bayesian" "greedy" in
  let '(win_rates, draw_rates) := win_rates_loop bg_all in
  match win_rates with
  | [] => Ok None
  | _ =>
      match py_min win_rates, py_max win_rates, highest_config bg_all win_rates with
      | Ok lo, Ok hi, Ok row =>
          Ok (Some {| configurations := List.length bg_all;
                      minimum := lo;
                      maximum := hi;
                      mean := np_mean win_rates;
                      median := np_median win_rates;
                      n_below_52 := List.length (below_52 win_rates);
                      n_52_68 := List.length (clustered_52_68 win_rates);
                      n_above_68 := List.length (above_68 win_rates);
                      max_row := row |})
      | Raise e, _, _ | _, Raise e, _ | _, _, Raise e => Raise e
      end
  end.

(** *** The "Range" lines (lines 271-288, 330-339, 363-372) *)

Definition pairings : list (string * string * string) :=
  [ ("bayesian", "bayesian", "Bayesian vs. Bayesian");
    ("bayesian", "greedy", "Bayesian vs. Greedy");
    ("greedy", "greedy", "Greedy vs. Greedy");
    ("bayesian", "random_commit", "Bayesian vs. Random-C");
    ("greedy", "random_commit", "Greedy vs. Random-C");
    ("bayesian", "pure_random", "Bayesian vs. Pure Rand");
    ("random_commit", "random_commit", "Random-C vs. Random-C");
    ("random_commit", "pure_random", "Random-C vs. Pure Rand");
    ("pure_random", "pure_random", "Pure Rand vs. Pure Rand") ].

Definition baseline_pairs : list (string * string * string) :=
  [ ("random_commit", "random_commit", "RC-RC");
    ("random_commit", "pure_random", "RC-PR");
    ("pure_random", "pure_random", "PR-PR") ].

(** The loops of these sections have one shape: for each pairing that
    has a baseline row, append one column of its first row. *)
Definition collect_step (column : ResultRow -> Q) (neither : DataFrame)
    (acc : list Q) (p : string * string * string) : list Q :=
  let '(p1, p2, label) := p in
  let row_data := pairing neither p1 p2 in
  match row_data with
  | row :: _ => acc ++ [column row]
  | [] => acc
  end.

Definition collect (column : ResultRow -> Q) (neither : DataFrame)
    (pairs : list (string * string * string)) : list Q :=
  fold_left (collect_step column neither) pairs [].

(** [min(l)] and [max(l)] of the "Range" line that follows each loop. *)
Definition range_of (l : list Q) : result (Q * Q) :=
  match py_min l, py_max l with
  | Ok lo, Ok hi => Ok (lo, hi)
  | Raise e, _ | _, Raise e => Raise e
  end.

Definition baseline_overlap_range (df : DataFrame) : result (Q * Q) :=
  range_of (collect draw_pattern_overlap_pct (neither df) baseline_pairs).

Definition reshuffle_range (df : DataFrame) : result (Q * Q) :=
  range_of (collect reshuffle_pct (neither df) (firstn 6 pairings)).

Definition draw_rate_range (df : DataFrame) : result (Q * Q) :=
  range_of (collect draw_pct (neither df) (firstn 3 pairings)).

(** The pairing has a row in the selection. *)
Definition present (neither : DataFrame) (p : string * string * string) : bool :=
  let '(p1, p2, label) := p in
  match pairing neither p1 p2 with
  | [] => false
  | _ :: _ => true
  end.

(** The test of line 73. *)
Definition has_decisive (r : ResultRow) : bool := (decisive_games r >? 0)%Z.

(** The first row of each pairing that has one, in the order of the
    pairings. *)
Definition first_rows (neither : DataFrame) (pairs : list (string * string * string))
  : list ResultRow :=
  flat_map (fun p => firstn 1 (pairing neither (fst (fst p)) (snd (fst p)))) pairs.

End Report.

(** ** plots.py: the other figures *)

Module Charts.
Import Table.

(** The colour table [COLORS]; [None] is the KeyError of a missing key. *)
Definition COLORS : list (string * string) :=
  [ ("bayesian", "#2E86AB");
    ("greedy", "#F77F00");
    ("random_commit", "#06A77D");
    ("pure_random", "#D62828");
    ("strategic", "#2E86AB");
    ("mixed", "#6CB4EE");
    ("baseline", "#B0B0B0") ].

Fixpoint dict_get {V : Type} (d : list (string * V)) (key : string) : option V :=
  match d with
  | [] => None
  | (k, v) :: tl => if (k =? key)%string then Some v else dict_get tl key
  end.

(** [x in l] on a list of strings. *)
Definition py_in (x : string) (l : list string) : bool :=
  existsb (fun y => (x =? y)%string) l.

Definition all_pairings_labels : list string :=
  ["B-B"; "B-G"; "G-G"; "B-RC"; "G-RC"; "B-PR"; "RC-RC"; "RC-PR"; "PR-PR"].

Definition all_pairing_configs : list (string * string) :=
  [ ("bayesian", "bayesian");
    ("bayesian", "greedy");
    ("greedy", "greedy");
    ("bayesian", "random_commit");
    ("greedy", "random_commit");
    ("bayesian", "pure_random");
    ("random_commit", "random_commit");
    ("random_commit", "pure_random");
    ("pure_random", "pure_random") ].

(** *** Figure 2, bar colours (lines 154-165) *)

Definition strategic : list string := ["bayesian"; "greedy"].
Definition baseline : list string := ["random_commit"; "pure_random"].

(** The key of [COLORS] chosen for a pairing. *)
Definition color_key (p1 p2 : string) : string :=
  if py_in p1 strategic && py_in p2 strategic then "strategic"
  else if (py_in p1 strategic && py_in p2 baseline) ||
          (py_in p2 strategic && py_in p1 baseline) then "mixed"
  else "baseline".

Definition bar_color (p1 p2 : string) : option string :=
  dict_get COLORS (color_key p1 p2).

(** The list [bar_colors]; [None] if a lookup in [COLORS] fails. *)
Fixpoint all_some {A : Type} (l : list (option A)) : option (list A) :=
  match l with
  | [] => Some []
  | None :: _ => None
  | Some a :: tl => option_map (cons a) (all_some tl)
  end.

Definition bar_colors_of (configs : list (string * string)) : option (list string) :=
  all_some (map (fun p => bar_color (fst p) (snd p)) configs).

Definition bar_colors : option (list string) := bar_colors_of all_pairing_configs.

(** *** Figure 2, panel A: draw rates (lines 167-176) *)

Definition draw_rates_step (neither : DataFrame)
    (st : list Q * list line) (p : string * string) : list Q * list line :=
  let '(draw_rates, out) := st in
  let '(p1_type, p2_type) := p in
  let row := pairing neither p1_type p2_type in
  match row with
  | r :: _ => (draw_rates ++ [draw_pct r], out)
  | [] => (draw_rates ++ [0], out ++ [Warning p1_type p2_type])
  end.

Definition draw_rates_loop (neither : DataFrame) (configs : list (string * string))
    : list Q * list line :=
  fold_left (draw_rates_step neither) configs ([], []).

(** *** Figure 2, panel B: pattern overlap (lines 186-194) *)

Definition overlap_rates_step (neither : DataFrame)
    (overlap_rates : list Q) (p : string * string) : list Q :=
  let '(p1_type, p2_type) := p in
  let row := pairing neither p1_type p2_type in
  match row with
  | r :: _ => overlap_rates ++ [draw_pattern_overlap_pct r]
  | [] => overlap_rates ++ [0]
  end.

Definition overlap_rates_loop (neither : DataFrame) (configs : list (string * string))
    : list Q :=
  fold_left (overlap_rates_step neither) configs [].

(** The value plotted for a pairing: a column of its first row, 0 if
    there is none. *)
Definition first_or_zero (column : ResultRow -> Q) (neither : DataFrame)
    (p : string * string) : Q :=
  match pairing neither (fst p) (snd p) with
  | r :: _ => column r
  | [] => 0
  end.

Definition absent (neither : DataFrame) (p : string * string) : bool :=
  match pairing neither (fst p) (snd p) with
  | [] => true
  | _ :: _ => false
  end.

(** *** Figure S1: draw rate by nervousness (lines 238-256) *)

Definition nervousness_configs : list string :=
  ["neither"; "p1_only"; "p2_only"; "both"].

Definition x_map : list (string * Z) :=
  [("neither", 0%Z); ("p1_only", 1%Z); ("p2_only", 2%Z); ("both", 3%Z)].

(** [Series.mean()]: nan on a column without rows. *)
Definition series_mean (col : list Q) : Float64.t :=
  match col with
  | [] => Float64.NaN
  | _ => Float64.Finite (fold_right Qplus 0 col / inject_Z (Z.of_nat (List.length col)))
  end.

Definition nervousness_step (pairing_data : DataFrame)
    (st : list string * list Float64.t) (config : string)
    : list string * list Float64.t :=
  let '(nervousness_levels, draw_pcts) := st in
  let config_data := filter (fun r => (config_name r =? config)%string) pairing_data in
  match config_data with
  | _ :: _ => (nervousness_levels ++ [config],
               draw_pcts ++ [series_mean (map draw_pct config_data)])
  | [] => (nervousness_levels, draw_pcts)
  end.

(** One line of the figure: the x positions and the mean draw rates;
    [None] is a KeyError in [x_map]. *)
Definition nervousness_line (df : DataFrame) (p1 p2 : string)
    : option (list Z * list Float64.t) :=
  let pairing_data := pairing df p1 p2 in
  let '(nervousness_levels, draw_pcts) :=
    fold_left (nervousness_step pairing_data) nervousness_configs ([], []) in
  match all_some (map (dict_get x_map) nervousness_levels) with
  | Some x_vals => Some (x_vals, draw_pcts)
  | None => None
  end.

(** *** Figure S3: outcomes before and after a reshuffle (lines 344-368) *)

Record stacked_bar : Type := {
  won_before : Float64.t;
  won_after : Float64.t;
  drew_after : Float64.t
}.

(** The three segments for a pairing that has a row. *)
Definition reshuffle_bar (r : ResultRow) : stacked_bar :=
  let total_games := total_games r in
  let never_reshuffled_pct := 100 - reshuffle_pct r in
  let won_after_pct :=
    if (games_reshuffled r >? 0)%Z then
      Float64.mul (Float64.true_divide (wins_after_reshuffle r) total_games)
                  (Float64.of_Z 100)
    else Float64.of_Z 0 in
  let drew_after_pct := draw_pct r in
  {| won_before := Float64.Finite never_reshuffled_pct;
     won_after := won_after_pct;
     drew_after := Float64.Finite drew_after_pct |}.

Definition reshuffle_step (neither : DataFrame)
    (bars : list stacked_bar) (p : string * string) : list stacked_bar :=
  let '(p1_type, p2_type) := p in
  let row := pairing neither p1_type p2_type in
  match row with
  | r :: _ => bars ++ [reshuffle_bar r]
  | [] => bars ++ [{| won_before := Float64.of_Z 0;
                      won_after := Float64.of_Z 0;
                      drew_after := Float64.of_Z 0 |}]
  end.

Definition reshuffle_loop (neither : DataFrame) (configs : list (string * string))
    : list stacked_bar :=
  fold_left (reshuffle_step neither) configs [].

(** The three zeros appended for a pairing without a row. *)
Definition zero_bar : stacked_bar :=
  {| won_before := Float64.of_Z 0;
     won_after := Float64.of_Z 0;
     drew_after := Float64.of_Z 0 |}.

End Charts.

(** ** viz.py: derived columns and the rest of the summary *)

Module Summary.
Import Viz.

(** The columns added by [plot_symmetric_analysis] (lines 221-222). *)
Definition progress_sum (r : DrawDetailRow) : Q :=
  player_progress r + opponent_progress r.

Definition progress_diff_abs (r : DrawDetailRow) : Q :=
  Qabs (player_progress r - opponent_progress r).

(** The column added by [plot_progress_difference_histogram] (line 69). *)
Definition progress_diff (r : DrawDetailRow) : Q :=
  player_progress r - opponent_progress r.

Definition label_eqb (a b : draw_type_label) : bool :=
  match a, b with
  | Unknown, Unknown | BothStuck, BothStuck | BothMid, BothMid
  | BothHigh, BothHigh | P1Ahead, P1Ahead | P2Ahead, P2Ahead => true
  | _, _ => false
  end.

(** [df['draw_type'].value_counts()] at one label (0 when the label does
    not occur; [value_counts] then has no entry for it). *)
Definition draw_type_count (t : draw_type_label) (df : DataFrame) : Z :=
  mask_sum (fun r => label_eqb (draw_type (player_progress r) (opponent_progress r)) t) df.

(** "Exact Pattern Matches" (line 296). *)
Definition exact_matches (df : DataFrame) : Z :=
  mask_sum (fun r => overlap_pct r >=? 100) df.

Definition exact_matches_pct (df : DataFrame) : Float64.t :=
  Float64.mul (Float64.true_divide (exact_matches df) (len df)) (Float64.of_Z 100).

(** The two units a progress value may come in. *)
Definition is_fraction (v : Q) : Prop := 0 <= v /\ v <= 1.
Definition is_percentage (v : Q) : Prop := 0 <= v /\ v <= 100.

End Summary.

(** ** Sample tables *)

Module Samples.

Definition draw (p1 p2 : Q) : Viz.DrawDetailRow :=
  {| Viz.p1_type := "bayesian"; Viz.p2_type := "greedy";
     Viz.player_progress := p1; Viz.opponent_progress := p2;
     Viz.overlap_pct := 100; Viz.overlap_category := "100% (Exact)";
     Viz.final_turn := 60 |}.

(** Player one in percent, player two as a fraction. *)
Definition percent_and_fraction : Viz.DataFrame := [draw 50 0.5].

(** Player one as a fraction, player two in percent. *)
Definition fraction_and_percent : Viz.DataFrame := [draw 0.5 50].

Definition fractions : Viz.DataFrame := [draw 0.8 0.3; draw 0.2 0.75].

Definition three_draws : Viz.DataFrame := [draw 80 90; draw 30 40; draw 75 10].

(** A row of the results table from its counts; the percentages are
    derived from them as the benchmark does. *)
Definition result_row (p1 p2 config : string) (wins1 wins2 drawn : Z)
    (reshuffled wins_after : Z) (high stuck similar p2_ahead p1_ahead : Z)
    : Table.ResultRow :=
  let total := (wins1 + wins2 + drawn)%Z in
  let decisive := (wins1 + wins2)%Z in
  {| Table.player1_type := p1;
     Table.player2_type := p2;
     Table.config_name := config;
     Table.total_games := total;
     Table.p1_wins := wins1;
     Table.p2_wins := wins2;
     Table.draws := drawn;
     Table.decisive_games := decisive;
     Table.p1_win_rate_decisive := Plots.win_rate_decisive wins1 decisive;
     Table.p2_win_rate_decisive := Plots.win_rate_decisive wins2 decisive;
     Table.draw_pct := 100 * inject_Z drawn / inject_Z total;
     Table.draw_pattern_overlap_pct := 95;
     Table.reshuffle_pct := 100 * inject_Z reshuffled / inject_Z total;
     Table.games_reshuffled := reshuffled;
     Table.wins_after_reshuffle := wins_after;
     Table.draw_both_high_progress := high;
     Table.draw_both_stuck := stuck;
     Table.draw_similar_progress := similar;
     Table.draw_p1_stuck_p2_ahead := p2_ahead;
     Table.draw_p2_stuck_p1_ahead := p1_ahead;
     Table.draw_avg_p1_progress := 60;
     Table.draw_avg_p2_progress := 55 |}.

(** Bayesian self-play with draws: 1000 games, 800 drawn. *)
Definition bb_with_draws : Table.ResultRow :=
  result_row "bayesian" "bayesian" "neither" 110 90 800 950 150 10 140 300 250 400.

(** Bayesian self-play where every game was decided: no draw at all. *)
Definition bb_no_draws : Table.ResultRow :=
  result_row "bayesian" "bayesian" "neither" 60 40 0 0 0 0 0 0 0 0.

(** Bayesian against Greedy, 55 wins in 100 decisive games. *)
Definition bg_typical : Table.ResultRow :=
  result_row "bayesian" "greedy" "neither" 55 45 900 950 50 10 140 300 350 400.

(** Bayesian against Greedy where no game was reshuffled. *)
Definition bg_never_reshuffled : Table.ResultRow :=
  result_row "bayesian" "greedy" "neither" 55 45 0 0 0 0 0 0 0 0.

(** Bayesian against Pure Random, every game decided for Bayesian. *)
Definition bpr_all_won (config : string) : Table.ResultRow :=
  result_row "bayesian" "pure_random" config 100 0 0 0 0 0 0 0 0 0.

(** Bayesian against Pure Random where every game was drawn. *)
Definition bpr_all_drawn (config : string) : Table.ResultRow :=
  result_row "bayesian" "pure_random" config 0 0 100 100 0 0 100 100 0 0.

Definition table_typical : Table.DataFrame :=
  [bb_with_draws; bg_typical; bpr_all_won "neither"; bpr_all_won "both"].

Definition table_no_draws : Table.DataFrame := [bb_no_draws; bg_typical].

Definition table_never_reshuffled : Table.DataFrame := [bg_never_reshuffled].

Definition table_only_bg : Table.DataFrame := [bg_typical].

Definition table_bpr_all_drawn : Table.DataFrame :=
  [bpr_all_drawn "neither"; bpr_all_drawn "both"].

End Samples.

(** ** viz.py: the heatmap and the means *)

Module Histograms.
Import Viz Summary.

(** *** Means printed by the histogram and by the summary *)

(** "Mean" of [plot_progress_difference_histogram] (line 83). *)
Definition progress_diff_mean (df : DataFrame) : Float64.t :=
  Charts.series_mean (map progress_diff df).

(** "Average Progress Difference" of [generate_summary_stats]
    (line 292). *)
Definition abs_diff_mean (df : DataFrame) : Float64.t :=
  Charts.series_mean (map progress_diff_abs df).

(** *** The 2-D histogram of [plot_progress_heatmap] (lines 112-118) *)

(** [np.arange(0, 101, 10)]: the eleven bin edges of each axis. *)
Definition x_bins : list Q := [0; 10; 20; 30; 40; 50; 60; 70; 80; 90; 100].
Definition y_bins : list Q := x_bins.

(** The bin of a value among edges [lo :: rest], numbered from [i], as
    [np.histogram2d] assigns it: every bin is closed on the left and open
    on the right, except the last one, which is closed on both sides; a
    value outside the edges is in no bin. *)
Fixpoint search (v lo : Q) (rest : list Q) (i : nat) : option nat :=
  match rest with
  | [] => None
  | hi :: rest' =>
      match rest' with
      | [] => if (lo <=? v) && (v <=? hi) then Some i else None
      | _ :: _ => if (lo <=? v) && (v <? hi) then Some i else search v hi rest' (S i)
      end
  end.

Definition bin_of (edges : list Q) (v : Q) : option nat :=
  match edges with
  | [] => None
  | lo :: rest => search v lo rest 0
  end.

(** The row falls in cell [(i, j)]. *)
Definition in_cell (i j : nat) (r : DrawDetailRow) : bool :=
  match bin_of x_bins (player_progress r), bin_of y_bins (opponent_progress r) with
  | Some a, Some b => (a =? i)%nat && (b =? j)%nat
  | _, _ => false
  end.

(** [hist[i, j]] *)
Definition hist (df : DataFrame) (i j : nat) : Z := mask_sum (in_cell i j) df.

(** Both progress values are inside the edges. *)
Definition in_range (r : DrawDetailRow) : bool :=
  match bin_of x_bins (player_progress r), bin_of y_bins (opponent_progress r) with
  | Some _, Some _ => true
  | _, _ => false
  end.

Definition sum_over (cells : list (nat * nat)) (f : nat -> nat -> Z) : Z :=
  fold_right (fun c acc => (f (fst c) (snd c) + acc)%Z) 0%Z cells.

(** All the cells of the heatmap, and those at or beyond the 70% lines
    drawn across it (lines 129-130). *)
Definition all_cells : list (nat * nat) := list_prod (seq 0 10) (seq 0 10).
Definition high_cells : list (nat * nat) := list_prod (seq 7 3) (seq 7 3).

End Histograms.

(** ** More sample tables *)

Module MoreSamples.

(** Fractions so small that one scaling leaves them below 1. *)
Definition tiny_fractions : Viz.DataFrame := [Samples.draw 0.005 0.004].

(** Bayesian against Greedy with player one nervous: every game drawn. *)
Definition bg_all_drawn : Table.ResultRow :=
  Samples.result_row "bayesian" "greedy" "p1_only" 0 0 1000 1000 0 0 600 300 50 50.

(** The configuration without decisive games comes first in the file. *)
Definition table_skipped_config : Table.DataFrame :=
  [bg_all_drawn; Samples.bg_typical].

End MoreSamples.

(** * Properties *)

(** ** Comparisons *)

Lemma Qlt_bool_iff (x y : Q) : (x <? y) = true <-> x < y.
Proof. unfold Qlt_bool, Qlt. apply Z.ltb_lt. Qed.

Lemma Qge_bool_iff (x y : Q) : (x >=? y) = true <-> y <= x.
Proof. unfold Qge_bool. apply Qle_bool_iff. Qed.

Lemma Qge_bool_negb_lt (x y : Q) : (x >=? y) = negb (x <? y).
Proof.
  unfold Qge_bool, Qle_bool, Qlt_bool.
  rewrite Z.leb_antisym. reflexivity.
Qed.

Lemma Qlt_bool_reflect (x y : Q) : reflect (x < y) (x <? y).
Proof. apply iff_reflect. symmetry. apply Qlt_bool_iff. Qed.

Lemma Qle_bool_reflect (x y : Q) : reflect (x <= y) (x <=? y).
Proof. apply iff_reflect. symmetry. apply Qle_bool_iff. Qed.

(** Linear arithmetic over the rationals and over the reals. *)
Ltac qlra := Lqa.lra.
Ltac rlra := Lra.lra.

(** Case analysis on the test [x <? c]: the test is replaced by its value
    and the order fact stays in the context. *)
Ltac threshold x c :=
  let H := fresh "H" in
  destruct (Qlt_bool_reflect x c) as [H | H];
  [ | apply Qnot_lt_le in H ].

(** ** viz.py *)

Module VizFacts.
Import Viz.

(** The chain of assignments as a decision tree on the four tests. *)
Lemma draw_type_tree (p1 p2 : Q) :
  draw_type p1 p2 =
    if p1 <? 70 then
      if p2 <? 70 then
        if (p1 <? 50) && (p2 <? 50) then BothStuck
        else if negb (p1 <? 50) && negb (p2 <? 50) then BothMid
        else Unknown
      else P2Ahead
    else
      if p2 <? 70 then P1Ahead else BothHigh.
Proof.
  unfold draw_type, loc_assign.
  rewrite !Qge_bool_negb_lt.
  destruct (p1 <? 50), (p1 <? 70), (p2 <? 50), (p2 <? 70); reflexivity.
Qed.

Ltac draw_type_cases p1 p2 :=
  rewrite (draw_type_tree p1 p2);
  threshold p1 50; threshold p1 70; threshold p2 50; threshold p2 70;
  cbn [andb negb].

Example draw_type_55_55 : draw_type 55 55 = BothMid.
Proof. reflexivity. Qed.

Example draw_type_10_20 : draw_type 10 20 = BothStuck.
Proof. reflexivity. Qed.

Example draw_type_40_60 : draw_type 40 60 = Unknown.
Proof. reflexivity. Qed.

Example categorize_three_draws :
  categorize Samples.three_draws = [BothHigh; BothStuck; P1Ahead].
Proof. reflexivity. Qed.

(** C1, as stated, fails: a pair inside the square that gets none of the
    five categories.  Player one is below 50 and player two is between 50
    and 70, so no assignment fires and the row keeps 'Unknown'. *)
Lemma draw_type_not_exhaustive :
  ~ (forall p1 p2 : Q,
        0 <= p1 <= 100 -> 0 <= p2 <= 100 ->
        is_category (draw_type p1 p2) = true).
Proof.
  intros H.
  specialize (H 40 60).
  assert (E : is_category (draw_type 40 60) = false) by reflexivity.
  rewrite H in E; [discriminate | split; discriminate | split; discriminate].
Qed.

(** C1, amended: every pair of progress values gets exactly one of six
    labels, each characterised by its condition.  The conditions of the
    five categories exclude each other; the pairs outside all of them (one
    side below 50, the other in [50,70)) keep 'Unknown'. *)
Theorem draw_type_partition (p1 p2 : Q) :
  (draw_type p1 p2 = BothStuck <-> p1 < 50 /\ p2 < 50) /\
  (draw_type p1 p2 = BothMid <-> (50 <= p1 /\ p1 < 70) /\ (50 <= p2 /\ p2 < 70)) /\
  (draw_type p1 p2 = BothHigh <-> 70 <= p1 /\ 70 <= p2) /\
  (draw_type p1 p2 = P1Ahead <-> 70 <= p1 /\ p2 < 70) /\
  (draw_type p1 p2 = P2Ahead <-> p1 < 70 /\ 70 <= p2) /\
  (draw_type p1 p2 = Unknown <->
     (p1 < 50 /\ 50 <= p2 /\ p2 < 70) \/ (50 <= p1 /\ p1 < 70 /\ p2 < 50)).
Proof.
  draw_type_cases p1 p2;
    repeat split; intros; try discriminate; try qlra;
    try (left; qlra); try (right; qlra);
    match goal with
    | H : _ \/ _ |- _ => destruct H; qlra
    | _ => idtac
    end.
Qed.

(** C2: the thresholds are inclusive on the lower bound.  A side at
    exactly 70 is high (ahead of a partner below 70), a side at exactly 50
    is never stuck and is mid with a partner in [50,70); the pair
    (70.0, 69.9) is 'P1 Ahead'. *)
Theorem draw_type_boundaries :
  draw_type 70 69.9 = P1Ahead /\
  (forall q, draw_type 70 q = if q <? 70 then P1Ahead else BothHigh) /\
  (forall q, draw_type q 70 = if q <? 70 then P2Ahead else BothHigh) /\
  (forall q, draw_type 50 q =
     if q <? 50 then Unknown else if q <? 70 then BothMid else P2Ahead) /\
  (forall q, draw_type q 50 =
     if q <? 50 then Unknown else if q <? 70 then BothMid else P1Ahead).
Proof.
  split; [reflexivity | ].
  repeat split; intros q; rewrite draw_type_tree;
    threshold q 50; threshold q 70; try reflexivity; qlra.
Qed.

(** *** load_data *)

Lemma fold_max_spec (tl : list Q) (x : Q) :
  let m := fold_left (fun m y => if m <? y then y else m) tl x in
  (m = x \/ In m tl) /\ x <= m /\ Forall (fun y => y <= m) tl.
Proof.
  revert x. induction tl as [ | y tl IH]; intros x; cbn.
  - split; [now left | split; [apply Qle_refl | constructor]].
  - destruct (IH (if x <? y then y else x)) as (Hin & Hle & Hall).
    threshold x y.
    + repeat split.
      * destruct Hin as [-> | Hin]; auto.
      * qlra.
      * constructor; assumption.
    + repeat split.
      * destruct Hin as [-> | Hin]; auto.
      * assumption.
      * constructor; [qlra | assumption].
Qed.

(** [series_max] is the largest value of the column. *)
Lemma series_max_spec (col : list Q) (m : Q) :
  series_max col = Some m -> In m col /\ Forall (fun y => y <= m) col.
Proof.
  destruct col as [ | x tl]; cbn; [discriminate | ].
  intros [= <-].
  destruct (fold_max_spec tl x) as (Hin & Hle & Hall).
  split; [ | constructor; assumption].
  destruct Hin as [-> | Hin]; auto.
Qed.

Lemma series_max_nonempty (col : list Q) :
  col <> [] -> exists m, series_max col = Some m.
Proof. destruct col; [congruence | eexists; reflexivity]. Qed.

(** The test of [load_data] against any maximum of the column. *)
Lemma max_le_of_maximum (col : list Q) (m bound : Q) :
  In m col -> Forall (fun y => y <= m) col ->
  max_le (series_max col) bound = (m <=? bound).
Proof.
  intros Hin Hall.
  destruct (series_max_nonempty col) as [m' Hm']; [intros ->; contradiction | ].
  rewrite Hm'. cbn.
  destruct (series_max_spec _ _ Hm') as (Hin' & Hall').
  rewrite Forall_forall in Hall, Hall'.
  assert (E : m' == m) by (apply Qle_antisym; auto).
  now rewrite E.
Qed.

Lemma load_data_scaled (df : DataFrame) :
  max_le (series_max (map player_progress df)) 1 = true ->
  map player_progress (load_data df) = map (fun v => v * 100) (map player_progress df) /\
  map opponent_progress (load_data df) = map (fun v => v * 100) (map opponent_progress df) /\
  map other_columns (load_data df) = map other_columns df.
Proof.
  intros E. unfold load_data. rewrite E.
  rewrite !map_map. repeat split; apply map_ext; reflexivity.
Qed.

Example load_data_percent_and_fraction :
  map opponent_progress (load_data Samples.percent_and_fraction) = [0.5].
Proof. reflexivity. Qed.

Example load_data_fraction_and_percent :
  map opponent_progress (load_data Samples.fraction_and_percent) = [50 * 100].
Proof. reflexivity. Qed.

(** C9, as stated, fails: the fields are not tested independently.  In
    the table [percent_and_fraction] the opponent column has maximum 0.5,
    yet it is left as it is, because the player column decides. *)
Lemma load_data_fields_not_independent :
  ~ (forall (df : DataFrame) (m : Q),
       In m (map opponent_progress df) ->
       Forall (fun v => v <= m) (map opponent_progress df) ->
       (m <= 1 ->
          Forall2 Qeq (map opponent_progress (load_data df))
                      (map (fun v => v * 100) (map opponent_progress df))) /\
       (~ m <= 1 ->
          Forall2 Qeq (map opponent_progress (load_data df))
                      (map opponent_progress df))).
Proof.
  intros H.
  destruct (H Samples.percent_and_fraction 0.5) as [Hscaled _].
  - left. reflexivity.
  - repeat constructor. discriminate.
  - assert (Hle : 0.5 <= 1) by discriminate.
    specialize (Hscaled Hle). cbn in Hscaled.
    inversion Hscaled as [ | x y l l' E _ ]. discriminate E.
Qed.

(** C9, amended: one test decides for both progress fields.  If and only
    if the maximum of player_progress is at most 1.0, every value of
    player_progress and of opponent_progress is multiplied by 100;
    otherwise the table is returned as read.  The other columns are never
    changed. *)
Theorem load_data_single_gate (df : DataFrame) (m : Q) :
  In m (map player_progress df) ->
  Forall (fun v => v <= m) (map player_progress df) ->
  (m <= 1 ->
     map player_progress (load_data df) = map (fun v => v * 100) (map player_progress df) /\
     map opponent_progress (load_data df) = map (fun v => v * 100) (map opponent_progress df)) /\
  (~ m <= 1 -> load_data df = df) /\
  map other_columns (load_data df) = map other_columns df.
Proof.
  intros Hin Hall.
  pose proof (max_le_of_maximum _ _ 1 Hin Hall) as E.
  destruct (Qle_bool_reflect m 1) as [Hm | Hm].
  - destruct (load_data_scaled df E) as (Hp & Ho & Hr).
    repeat split; auto. intros; contradiction.
  - unfold load_data. rewrite E.
    repeat split; auto; intros; contradiction.
Qed.

Lemma load_data_single_gate_witness :
  In 0.8 (map player_progress Samples.fractions) /\
  Forall (fun v => v <= 0.8) (map player_progress Samples.fractions) /\
  0.8 <= 1 /\
  map player_progress (load_data Samples.fractions) = [0.8 * 100; 0.2 * 100] /\
  map opponent_progress (load_data Samples.fractions) = [0.3 * 100; 0.75 * 100].
Proof.
  assert (Hin : In 0.8 (map player_progress Samples.fractions))
    by (left; reflexivity).
  assert (Hall : Forall (fun v => v <= 0.8) (map player_progress Samples.fractions))
    by (repeat constructor; discriminate).
  assert (Hle : 0.8 <= 1) by discriminate.
  destruct (load_data_single_gate Samples.fractions 0.8 Hin Hall) as (Hs & _ & _).
  destruct (Hs Hle) as (Hp & Ho).
  repeat split; assumption.
Defined.

(** An empty table goes through unchanged. *)
Lemma load_data_empty : load_data [] = [].
Proof. reflexivity. Qed.

(** *** Quadrants of generate_summary_stats *)

Lemma quadrant_masks_exclusive (r : DrawDetailRow) :
  (Z.b2z (is_both_high r) + Z.b2z (is_both_stuck r) +
   Z.b2z (is_p1_ahead r) + Z.b2z (is_p2_ahead r) = 1)%Z.
Proof.
  unfold is_both_high, is_both_stuck, is_p1_ahead, is_p2_ahead.
  rewrite !Qge_bool_negb_lt.
  destruct (player_progress r <? 70), (opponent_progress r <? 70); reflexivity.
Qed.

Lemma len_cons (r : DrawDetailRow) (df : DataFrame) :
  len (r :: df) = (1 + len df)%Z.
Proof. unfold len. cbn [List.length]. lia. Qed.

Lemma quadrant_counts_total (df : DataFrame) :
  (both_high df + both_stuck df + p1_ahead df + p2_ahead df = len df)%Z.
Proof.
  unfold both_high, both_stuck, p1_ahead, p2_ahead.
  induction df as [ | r df IH].
  - reflexivity.
  - rewrite len_cons. cbn [mask_sum fold_right].
    fold (mask_sum is_both_high df) (mask_sum is_both_stuck df)
         (mask_sum is_p1_ahead df) (mask_sum is_p2_ahead df).
    pose proof (quadrant_masks_exclusive r). lia.
Qed.

Lemma len_pos (df : DataFrame) : df <> [] -> (0 < len df)%Z.
Proof. destruct df; [congruence | intros _; rewrite len_cons; unfold len; lia]. Qed.

Example three_draws_counts :
  (both_high Samples.three_draws, both_stuck Samples.three_draws,
   p1_ahead Samples.three_draws, p2_ahead Samples.three_draws) = (1, 1, 1, 0)%Z.
Proof. reflexivity. Qed.

(** The figures the summary prints for [three_draws]: one game in each
    of three quadrants, none in the fourth. *)
Example three_draws_texts :
  Printed.quadrant_text (both_high Samples.three_draws) Samples.three_draws = Some 333%Z /\
  Printed.quadrant_text (both_stuck Samples.three_draws) Samples.three_draws = Some 333%Z /\
  Printed.quadrant_text (p1_ahead Samples.three_draws) Samples.three_draws = Some 333%Z /\
  Printed.quadrant_text (p2_ahead Samples.three_draws) Samples.three_draws = Some 0%Z.
Proof. repeat split; vm_compute; reflexivity. Qed.

(** Before they are printed the four float64 values already fall short
    of 100: each third is 33.333333333333329. *)
Example three_draws_floats :
  exists a : Q,
    Binary64.to_Q (Printed.quadrant_pct 1 Samples.three_draws) = Some a /\
    Binary64.to_Q (Printed.quadrant_pct 0 Samples.three_draws) = Some 0 /\
    a + a + a + 0 < 100.
Proof. eexists. repeat split; vm_compute; reflexivity. Qed.

(** C10, as stated, fails in its last clause: on a table with rows the
    four percentages reported need not sum to 100.  For [three_draws] the
    summary prints 33.3, 33.3, 33.3 and 0.0, which make 99.9. *)
Lemma reported_percentages_miss_100 :
  ~ (forall df : DataFrame,
       df <> [] ->
       exists a b c d : Z,
         Printed.quadrant_text (both_high df) df = Some a /\
         Printed.quadrant_text (both_stuck df) df = Some b /\
         Printed.quadrant_text (p1_ahead df) df = Some c /\
         Printed.quadrant_text (p2_ahead df) df = Some d /\
         (a + b + c + d = 1000)%Z).
Proof.
  intros H.
  destruct (H Samples.three_draws) as (a & b & c & d & Ha & Hb & Hc & Hd & Hsum);
    [discriminate | ].
  destruct three_draws_texts as (Ea & Eb & Ec & Ed).
  rewrite Ea in Ha. rewrite Eb in Hb. rewrite Ec in Hc. rewrite Ed in Hd.
  injection Ha as <-. injection Hb as <-. injection Hc as <-. injection Hd as <-.
  discriminate Hsum.
Qed.

(** C10, amended: the four quadrants at the 70% threshold partition the
    rows.  Every row satisfies exactly one of the four masks, so for every
    table with rows the four counts add up to the number of rows and the
    four shares [count / len(df)] add up to 1 as exact fractions.  (The
    percentages reported are these shares times 100 in float64, printed
    to one decimal; their sum is not part of the statement.) *)
Theorem quadrants_partition (df : DataFrame) :
  df <> [] ->
  (forall r, (Z.b2z (is_both_high r) + Z.b2z (is_both_stuck r) +
              Z.b2z (is_p1_ahead r) + Z.b2z (is_p2_ahead r) = 1)%Z) /\
  (both_high df + both_stuck df + p1_ahead df + p2_ahead df = len df)%Z /\
  inject_Z (both_high df) / inject_Z (len df) +
  inject_Z (both_stuck df) / inject_Z (len df) +
  inject_Z (p1_ahead df) / inject_Z (len df) +
  inject_Z (p2_ahead df) / inject_Z (len df) == 1.
Proof.
  intros Hdf.
  split; [exact quadrant_masks_exclusive | ].
  split; [exact (quadrant_counts_total df) | ].
  pose proof (quadrant_counts_total df) as Hsum.
  pose proof (len_pos df Hdf) as Hlen.
  assert (Hnz : ~ inject_Z (len df) == 0).
  { intros E. unfold Qeq in E. cbn in E. lia. }
  assert (Hq : inject_Z (both_high df) + inject_Z (both_stuck df) +
               inject_Z (p1_ahead df) + inject_Z (p2_ahead df) == inject_Z (len df)).
  { rewrite <- !inject_Z_plus. now rewrite Hsum. }
  set (L := inject_Z (len df)) in *.
  set (x := inject_Z (both_high df)) in *. set (y := inject_Z (both_stuck df)) in *.
  set (z := inject_Z (p1_ahead df)) in *. set (w := inject_Z (p2_ahead df)) in *.
  transitivity ((x + y + z + w) / L).
  - field. assumption.
  - rewrite Hq. field. assumption.
Qed.

Lemma quadrants_partition_witness :
  Samples.three_draws <> [] /\
  (both_high Samples.three_draws + both_stuck Samples.three_draws +
   p1_ahead Samples.three_draws + p2_ahead Samples.three_draws = 3)%Z /\
  inject_Z (both_high Samples.three_draws) / inject_Z (len Samples.three_draws) +
  inject_Z (both_stuck Samples.three_draws) / inject_Z (len Samples.three_draws) +
  inject_Z (p1_ahead Samples.three_draws) / inject_Z (len Samples.three_draws) +
  inject_Z (p2_ahead Samples.three_draws) / inject_Z (len Samples.three_draws) == 1.
Proof.
  assert (Hdf : Samples.three_draws <> []) by discriminate.
  split; [exact Hdf | ].
  destruct (quadrants_partition Samples.three_draws Hdf) as (_ & Hsum & Hshares).
  split; [exact Hsum | exact Hshares].
Defined.

End VizFacts.

(** ** The exact binomial test *)

Module BinomFacts.
Import Binom.

(** *** The rows are the binomial coefficients *)

Lemma nth_pascal_next (row : list N) (p : N) (i : nat) :
  nth i (pascal_next p row) 0%N = (nth i (p :: row) 0 + nth i row 0)%N.
Proof.
  revert p i. induction row as [ | x tl IH]; intros p i.
  - destruct i as [ | [ | j]]; cbn; lia.
  - destruct i as [ | j]; cbn [pascal_next nth]; [reflexivity | ].
    rewrite IH. reflexivity.
Qed.

Lemma pascal_row_choose (n k : nat) :
  nth k (pascal_row n) 0%N = choose n k.
Proof.
  revert k. induction n as [ | m IH]; intros k.
  - destruct k as [ | [ | j]]; reflexivity.
  - cbn [pascal_row]. rewrite nth_pascal_next.
    destruct k as [ | j].
    + cbn [nth]. rewrite IH. destruct m; reflexivity.
    + cbn [nth choose]. rewrite !IH. reflexivity.
Qed.

Lemma sumN_pascal_next (row : list N) (p : N) :
  sumN (pascal_next p row) = (p + 2 * sumN row)%N.
Proof.
  revert p. induction row as [ | x tl IH]; intros p; cbn [pascal_next sumN fold_right].
  - lia.
  - fold (sumN (pascal_next x tl)) (sumN tl). rewrite IH. lia.
Qed.

(** All outcomes of [n] tosses. *)
Lemma sumN_pascal_row (n : nat) : sumN (pascal_row n) = (2 ^ N.of_nat n)%N.
Proof.
  induction n as [ | m IH].
  - reflexivity.
  - cbn [pascal_row]. rewrite sumN_pascal_next, IH.
    rewrite Nat2N.inj_succ, N.pow_succ_r'. lia.
Qed.

(** *** Tails *)

Lemma sumN_skipn_le (l : list N) (k : nat) : (sumN (skipn k l) <= sumN l)%N.
Proof.
  revert k. induction l as [ | x tl IH]; intros [ | k]; cbn [skipn]; try lia.
  specialize (IH k). cbn [sumN fold_right]. fold (sumN tl). lia.
Qed.

Lemma upper_tail_antitone (n k1 k2 : nat) :
  (k1 <= k2)%nat -> (upper_tail n k2 <= upper_tail n k1)%N.
Proof.
  intros Hk. unfold upper_tail.
  replace k2 with ((k2 - k1) + k1)%nat by lia.
  rewrite <- skipn_skipn. apply sumN_skipn_le.
Qed.

Lemma upper_tail_0 (n : nat) : upper_tail n 0 = (2 ^ N.of_nat n)%N.
Proof. unfold upper_tail. cbn [skipn]. apply sumN_pascal_row. Qed.

Lemma pow2_pos (n : nat) : 0 < inject_Z (2 ^ Z.of_nat n).
Proof.
  change 0 with (inject_Z 0). rewrite <- Zlt_Qlt.
  apply Z.pow_pos_nonneg; lia.
Qed.

Lemma pvalue_antitone (n k1 k2 : nat) :
  (k1 <= k2)%nat -> pvalue k2 n <= pvalue k1 n.
Proof.
  intros Hk. unfold pvalue, Qdiv.
  apply Qmult_le_compat_r.
  - rewrite <- Zle_Qle. apply N2Z.inj_le. now apply upper_tail_antitone.
  - apply Qinv_le_0_compat, Qlt_le_weak, pow2_pos.
Qed.

(** With no win required the test is certain. *)
Lemma pvalue_0 (n : nat) : pvalue 0 n == 1.
Proof.
  unfold pvalue. rewrite upper_tail_0.
  rewrite N2Z.inj_pow, nat_N_Z. change (Z.of_N 2) with 2%Z.
  field. apply Qnot_eq_sym, Qlt_not_eq, pow2_pos.
Qed.

Lemma pvalue_range (k n : nat) : 0 <= pvalue k n <= 1.
Proof.
  split.
  - unfold pvalue, Qdiv. apply Qmult_le_0_compat.
    + change 0 with (inject_Z 0). rewrite <- Zle_Qle. lia.
    + apply Qinv_le_0_compat, Qlt_le_weak, pow2_pos.
  - rewrite <- (pvalue_0 n). apply pvalue_antitone. lia.
Qed.

(** Scenario 1 of the specification: 55 wins in 100 decisive games. *)
Example pvalue_55_100 : 0.184 < pvalue 55 100 /\ pvalue 55 100 < 0.185.
Proof. split; vm_compute; reflexivity. Qed.

(** Scenario 2: 100 wins in 100 games, reported as "p < 0.001". *)
Example pvalue_100_100 : pvalue 100 100 < 0.001.
Proof. vm_compute. reflexivity. Qed.

(** C8: for a fixed number of decisive games the one-sided p-value does
    not increase with the number of wins. *)
Theorem binomtest_greater_monotone (w1 w2 n : Z) :
  (0 <= w1)%Z -> (w1 <= w2)%Z -> (w2 <= n)%Z ->
  binomtest_greater w2 n <= binomtest_greater w1 n.
Proof.
  intros H0 H12 _. unfold binomtest_greater.
  apply pvalue_antitone. apply Z2Nat.inj_le; lia.
Qed.

Lemma binomtest_greater_monotone_witness :
  (0 <= 55)%Z /\ (55 <= 60)%Z /\ (60 <= 100)%Z /\
  binomtest_greater 60 100 <= binomtest_greater 55 100.
Proof.
  repeat (split; [lia | ]).
  apply (binomtest_greater_monotone 55 60 100); lia.
Defined.

End BinomFacts.

(** ** float64 arithmetic *)

Module Float64Facts.
Import Float64.

Lemma true_divide_pos (a b : Z) :
  (0 < b)%Z -> true_divide a b = Finite (inject_Z a / inject_Z b).
Proof.
  intros Hb. unfold true_divide.
  destruct (Z.eqb_spec b 0); [lia | reflexivity].
Qed.

(** A zero denominator never gives a number. *)
Lemma true_divide_zero (a : Z) :
  true_divide a 0 = NaN \/ exists s, true_divide a 0 = Inf s.
Proof.
  unfold true_divide. cbn.
  destruct (a =? 0)%Z; [now left | right; eexists; reflexivity].
Qed.

Lemma mul_not_finite (x : t) (c : Z) :
  (forall q, x <> Finite q) -> forall q, mul x (of_Z c) <> Finite q.
Proof.
  intros Hx q. unfold of_Z.
  destruct x as [a | s | ]; cbn.
  - now destruct (Hx a).
  - destruct (is_zero (inject_Z c)); discriminate.
  - discriminate.
Qed.

End Float64Facts.

(** ** res.py *)

Module ResFacts.
Import Table Res.

Lemma pct_of_pos (count total : Z) :
  (0 < total)%Z ->
  pct_of count total =
    Float64.Finite (inject_Z count / inject_Z total * inject_Z 100).
Proof.
  intros Ht. unfold pct_of. now rewrite Float64Facts.true_divide_pos.
Qed.

(** With a zero total the percentage is nan or an infinity, whatever the
    count: never a number, in particular never 0. *)
Lemma pct_of_zero_total (count : Z) (q : Q) :
  pct_of count 0 <> Float64.Finite q.
Proof.
  unfold pct_of. apply Float64Facts.mul_not_finite.
  intros q'. destruct (Float64Facts.true_divide_zero count) as [E | [s E]];
    rewrite E; discriminate.
Qed.

Lemma pct_of_0_0 : pct_of 0 0 = Float64.NaN.
Proof. reflexivity. Qed.

(** *** Section 4.3.2 *)

Example progress_at_draw_typical :
  exists rep,
    progress_at_draw_section Samples.table_typical = Some rep /\
    Float64.is_value (both_high_pct rep) 1.25 /\
    Float64.is_value (both_stuck_pct rep) 17.5 /\
    Float64.is_value (similar_pct rep) 37.5 /\
    Float64.is_value (asymmetric_pct rep) 81.25.
Proof. eexists. split; [reflexivity | ]. repeat split. Qed.

(** C3, the code at the failing input: a Bayesian self-play row without a
    single draw.  The block divides each count by [total_draws = 0]; the
    four percentages are nan, not 0. *)
Theorem progress_at_draw_zero_draws :
  draws Samples.bb_no_draws = 0%Z /\
  progress_at_draw_section Samples.table_no_draws =
    Some {| total_draws := 0;
            both_high_pct := Float64.NaN;
            both_stuck_pct := Float64.NaN;
            similar_pct := Float64.NaN;
            asymmetric := 0;
            asymmetric_pct := Float64.NaN |}.
Proof. split; reflexivity. Qed.

(** The same for every first row with a zero draw count: none of the four
    percentages is a number. *)
Lemma progress_at_draw_never_zero_pct (row : ResultRow) (rest : DataFrame) :
  draws row = 0%Z ->
  exists rep,
    progress_at_draw (row :: rest) = Some rep /\
    forall q, both_high_pct rep <> Float64.Finite q /\
              both_stuck_pct rep <> Float64.Finite q /\
              similar_pct rep <> Float64.Finite q /\
              asymmetric_pct rep <> Float64.Finite q.
Proof.
  intros Hd. eexists. split; [reflexivity | ].
  intros q. cbn. rewrite Hd. repeat split; apply pct_of_zero_total.
Qed.

(** *** Section 4.3.3 *)

Example reshuffle_resolution_typical :
  exists rep,
    reshuffle_resolution_section Samples.table_typical = Some rep /\
    Float64.is_value (resolution_pct rep) (100 * 50 / 950) /\
    Float64.is_value (draw_again_pct rep) (100 - 100 * 50 / 950).
Proof. eexists. split; [reflexivity | ]. split; reflexivity. Qed.

(** C4, as stated, fails: with [games_reshuffled = 0] the block is
    skipped, so no resolution rate is produced, 0% or other. *)
Lemma reshuffle_resolution_no_rate :
  games_reshuffled Samples.bg_never_reshuffled = 0%Z /\
  ~ (exists rep,
       reshuffle_resolution_section Samples.table_never_reshuffled = Some rep /\
       Float64.is_value (resolution_pct rep) 0).
Proof.
  split; [reflexivity | ].
  intros (rep & H & _). discriminate H.
Qed.

(** C4, amended: when games_reshuffled is positive the resolution rate is
    100 * wins_after_reshuffle / games_reshuffled and the drew-again rate
    is its complement to 100; when games_reshuffled is 0 (or negative) the
    block computes nothing, whatever wins_after_reshuffle is, and no
    division is performed. *)
Theorem reshuffle_resolution_guarded (row : ResultRow) (rest : DataFrame) :
  ((0 < games_reshuffled row)%Z ->
     exists rep,
       reshuffle_resolution (row :: rest) = Some rep /\
       Float64.is_value (resolution_pct rep)
         (100 * inject_Z (wins_after_reshuffle row) / inject_Z (games_reshuffled row)) /\
       Float64.is_value (draw_again_pct rep)
         (100 - 100 * inject_Z (wins_after_reshuffle row) / inject_Z (games_reshuffled row))) /\
  ((games_reshuffled row <= 0)%Z -> reshuffle_resolution (row :: rest) = None).
Proof.
  split; intros Hg; unfold reshuffle_resolution.
  - destruct (Z.gtb_spec (games_reshuffled row) 0) as [_ | ?]; [ | lia].
    eexists. split; [reflexivity | ].
    cbn [resolution_pct draw_again_pct].
    rewrite pct_of_pos by assumption.
    assert (Hnz : ~ inject_Z (games_reshuffled row) == 0).
    { intros E. unfold Qeq in E. cbn in E. lia. }
    cbn [Float64.is_value Float64.sub Float64.add Float64.opp Float64.of_Z].
    change (inject_Z 100) with 100.
    split; field; assumption.
  - destruct (Z.gtb_spec (games_reshuffled row) 0) as [? | _]; [lia | reflexivity].
Qed.

Lemma reshuffle_resolution_guarded_witness :
  (0 < games_reshuffled Samples.bg_typical)%Z /\
  (games_reshuffled Samples.bg_never_reshuffled <= 0)%Z /\
  (exists rep,
     reshuffle_resolution [Samples.bg_typical] = Some rep /\
     Float64.is_value (resolution_pct rep) (100 * 50 / 950) /\
     Float64.is_value (draw_again_pct rep) (100 - 100 * 50 / 950)) /\
  reshuffle_resolution [Samples.bg_never_reshuffled] = None.
Proof.
  assert (H1 : (0 < games_reshuffled Samples.bg_typical)%Z) by reflexivity.
  assert (H2 : (games_reshuffled Samples.bg_never_reshuffled <= 0)%Z) by discriminate.
  split; [exact H1 | split; [exact H2 | split]].
  - exact (proj1 (reshuffle_resolution_guarded Samples.bg_typical []) H1).
  - exact (proj2 (reshuffle_resolution_guarded Samples.bg_never_reshuffled []) H2).
Defined.

(** *** Pooled win rate, Bayesian vs Pure Random *)

Lemma pooled_win_rate_pos (df : DataFrame) (p1 p2 : string) :
  let rep := pooled df p1 p2 in
  (0 < total_decisive rep)%Z ->
  Float64.is_value (win_rate rep)
    (100 * inject_Z (total_p1_wins rep) / inject_Z (total_decisive rep)).
Proof.
  cbn. intros Hn. rewrite pct_of_pos by assumption.
  cbn [Float64.is_value]. change (inject_Z 100) with 100.
  field. intros E. unfold Qeq in E. cbn in E. lia.
Qed.

Lemma pooled_win_rate_zero (df : DataFrame) (p1 p2 : string) :
  let rep := pooled df p1 p2 in
  total_decisive rep = 0%Z ->
  forall q, win_rate rep <> Float64.Finite q.
Proof.
  cbn. intros Hn q. rewrite Hn. apply pct_of_zero_total.
Qed.

Example pooled_typical :
  let rep := bayesian_vs_pure_random Samples.table_typical in
  total_p1_wins rep = 200%Z /\ total_decisive rep = 200%Z /\
  Float64.is_value (win_rate rep) 100 /\ p_value rep < 0.001.
Proof. cbn zeta. repeat split; vm_compute; reflexivity. Qed.

(** C6, the code at the failing input: every Bayesian vs Pure Random game
    was drawn, so the pooled decisive total is 0.  The p-value is guarded
    (it is set to 1.0); the win rate printed seven lines below divides by
    the same total without the guard and is nan. *)
Theorem pooled_win_rate_zero_total :
  let rep := bayesian_vs_pure_random Samples.table_bpr_all_drawn in
  total_decisive rep = 0%Z /\
  p_value rep = 1 /\
  win_rate rep = Float64.NaN.
Proof. cbn zeta. repeat split. Qed.

(** The same when the table has rows but none for the pairing (the empty
    selection keeps its integer columns, so the sums are numpy zeros). *)
Lemma pooled_win_rate_no_rows :
  pairing Samples.table_only_bg "bayesian" "pure_random" = [] /\
  win_rate (bayesian_vs_pure_random Samples.table_only_bg) = Float64.NaN.
Proof. split; reflexivity. Qed.

(** *** Section 4.3.1 *)

Example strategic_overlap_typical :
  strategic_overlap Samples.table_typical =
    Ok ([95; 95], [Overlap "B-B" 95; Overlap "B-G" 95; Range 95 95]).
Proof. reflexivity. Qed.

(** An absent pairing leaves the state of the loop as it was. *)
Lemma overlap_step_absent (neither : DataFrame) (p1 p2 label : string)
    (st : list Q * list line) :
  pairing neither p1 p2 = [] ->
  overlap_step neither st (p1, p2, label) = st.
Proof.
  intros H. destruct st as [overlaps out]. unfold overlap_step. now rewrite H.
Qed.

Example strategic_overlap_only_bg :
  strategic_overlap Samples.table_only_bg =
    Ok ([95], [Overlap "B-G" 95; Range 95 95]).
Proof. reflexivity. Qed.

(** C5, as stated, fails in the report pipeline: the table
    [table_only_bg] has no row for Bayesian vs Bayesian, which the loop
    requests; the report goes on, but with one overlap instead of three
    and no warning among the lines printed. *)
Lemma strategic_overlap_skips_silently :
  ~ (forall (df : DataFrame) (p1 p2 label : string),
       In (p1, p2, label) strategic_pairs ->
       pairing (neither df) p1 p2 = [] ->
       exists overlaps out,
         strategic_overlap df = Ok (overlaps, out) /\ In (Warning p1 p2) out).
Proof.
  intros H.
  destruct (H Samples.table_only_bg "bayesian" "bayesian" "B-B")
    as (overlaps & out & Hrun & Hwarn).
  - left. reflexivity.
  - reflexivity.
  - rewrite strategic_overlap_only_bg in Hrun.
    injection Hrun as _ <-.
    destruct Hwarn as [E | [E | []]]; discriminate E.
Qed.

(** When none of the three strategic pairings has a row, the list of
    overlaps is empty and the [min] of the "Range" line raises. *)
Lemma strategic_overlap_raises_without_rows :
  strategic_overlap [] = Raise "ValueError".
Proof. reflexivity. Qed.

End ResFacts.

(** ** plots.py, Figure 1 *)

Module PlotsFacts.
Import Table Plots.

Lemma Q2R_inject_Z (z : Z) : Q2R (inject_Z z) = IZR z.
Proof. unfold Q2R, inject_Z. cbn. rlra. Qed.

Lemma Q2R_win_rate_decisive (w n : Z) :
  (0 < n)%Z -> Q2R (win_rate_decisive w n) = (100 * IZR w / IZR n)%R.
Proof.
  intros Hn. unfold win_rate_decisive.
  destruct (Z.eqb_spec n 0); [lia | ].
  rewrite Q2R_div, Q2R_mult, !Q2R_inject_Z.
  - replace (Q2R 100) with 100%R by (unfold Q2R; cbn; rlra). reflexivity.
  - intros E. unfold Qeq in E. cbn in E. lia.
Qed.

Lemma error_bar_no_games (rate : Q) (n : Z) :
  (n <= 0)%Z -> error_bar rate n = 0%R.
Proof.
  intros Hn. unfold error_bar.
  destruct (Z.gtb_spec n 0); [lia | reflexivity].
Qed.

Lemma error_bar_games (rate : Q) (n : Z) :
  (0 < n)%Z -> error_bar rate n = ci95 rate n.
Proof.
  intros Hn. unfold error_bar.
  destruct (Z.gtb_spec n 0); [reflexivity | lia].
Qed.

(** C7: the error bar of a side whose win rate is that of [w] wins in [n]
    decisive games is 1.96 * sqrt(p (1 - p) / n) * 100 with p = w / n when
    n > 0, and 0 when n = 0; when all decisive games were won (w = n, win
    rate 100.0) it is 0. *)
Theorem error_bar_closed_form (w n : Z) (rate : Q) :
  (0 <= w <= n)%Z ->
  rate == win_rate_decisive w n ->
  ((0 < n)%Z ->
     let p := (IZR w / IZR n)%R in
     error_bar rate n = (1.96 * sqrt (p * (1 - p) / IZR n) * 100)%R) /\
  (n = 0%Z -> error_bar rate n = 0%R) /\
  ((0 < n)%Z -> w = n -> error_bar rate n = 0%R).
Proof.
  intros Hw Hrate.
  assert (Hform : (0 < n)%Z ->
            error_bar rate n =
              (1.96 * sqrt (IZR w / IZR n * (1 - IZR w / IZR n) / IZR n) * 100)%R).
  { intros Hn. rewrite error_bar_games by assumption. unfold ci95.
    rewrite (Qeq_eqR _ _ Hrate), Q2R_win_rate_decisive by assumption.
    assert (Hnz : IZR n <> 0%R) by (apply not_0_IZR; lia).
    replace (100 * IZR w / IZR n / 100)%R with (IZR w / IZR n)%R by (field; assumption).
    reflexivity. }
  split; [exact Hform | split].
  - intros ->. apply error_bar_no_games. lia.
  - intros Hn ->. rewrite Hform by assumption.
    assert (Hnz : IZR n <> 0%R) by (apply not_0_IZR; lia).
    replace (IZR n / IZR n * (1 - IZR n / IZR n) / IZR n)%R with 0%R by (field; assumption).
    rewrite sqrt_0. rlra.
Qed.

Lemma error_bar_closed_form_witness :
  (0 <= 100 <= 100)%Z /\
  100 == win_rate_decisive 100 100 /\
  error_bar 100 100 = 0%R.
Proof.
  assert (Hw : (0 <= 100 <= 100)%Z) by lia.
  assert (Hrate : 100 == win_rate_decisive 100 100) by reflexivity.
  split; [exact Hw | split; [exact Hrate | ]].
  destruct (error_bar_closed_form 100 100 100 Hw Hrate) as (_ & _ & Hall).
  apply Hall; [lia | reflexivity].
Defined.

(** *** The loop *)

Lemma winrate_step_absent (neither : DataFrame) (p1_type p2_type : string) (st : series) :
  pairing neither p1_type p2_type = [] ->
  winrate_step neither st (p1_type, p2_type) =
    {| s_p1_wins := s_p1_wins st ++ [0%R];
       s_p2_wins := s_p2_wins st ++ [0%R];
       s_p1_errors := s_p1_errors st ++ [0%R];
       s_p2_errors := s_p2_errors st ++ [0%R];
       s_out := s_out st ++ [Warning p1_type p2_type] |}.
Proof. intros H. unfold winrate_step. now rewrite H. Qed.

Lemma winrate_step_present (neither : DataFrame) (p1_type p2_type : string)
    (st : series) (r : ResultRow) (rest : DataFrame) :
  pairing neither p1_type p2_type = r :: rest ->
  winrate_step neither st (p1_type, p2_type) =
    {| s_p1_wins := s_p1_wins st ++ [Q2R (p1_win_rate_decisive r)];
       s_p2_wins := s_p2_wins st ++ [Q2R (p2_win_rate_decisive r)];
       s_p1_errors := s_p1_errors st ++ [error_bar (p1_win_rate_decisive r) (decisive_games r)];
       s_p2_errors := s_p2_errors st ++ [error_bar (p2_win_rate_decisive r) (decisive_games r)];
       s_out := s_out st |}.
Proof. intros H. unfold winrate_step. now rewrite H. Qed.

(** Each turn adds one entry to each of the four series. *)
Lemma winrate_step_lengths (neither : DataFrame) (st : series) (p : string * string) :
  let st' := winrate_step neither st p in
  List.length (s_p1_wins st') = S (List.length (s_p1_wins st)) /\
  List.length (s_p2_wins st') = S (List.length (s_p2_wins st)) /\
  List.length (s_p1_errors st') = S (List.length (s_p1_errors st)) /\
  List.length (s_p2_errors st') = S (List.length (s_p2_errors st)).
Proof.
  destruct p as [p1_type p2_type]. unfold winrate_step.
  destruct (pairing neither p1_type p2_type); cbn;
    rewrite !length_app; cbn; repeat split; lia.
Qed.

Lemma fold_winrate_lengths (neither : DataFrame) (pairs : list (string * string)) (st : series) :
  let st' := fold_left (winrate_step neither) pairs st in
  List.length (s_p1_wins st') = (List.length (s_p1_wins st) + List.length pairs)%nat /\
  List.length (s_p2_wins st') = (List.length (s_p2_wins st) + List.length pairs)%nat /\
  List.length (s_p1_errors st') = (List.length (s_p1_errors st) + List.length pairs)%nat /\
  List.length (s_p2_errors st') = (List.length (s_p2_errors st) + List.length pairs)%nat.
Proof.
  revert st. induction pairs as [ | p pairs IH]; intros st; cbn [fold_left List.length].
  - cbn zeta. repeat split; lia.
  - cbn zeta. destruct (IH (winrate_step neither st p)) as (H1 & H2 & H3 & H4).
    destruct (winrate_step_lengths neither st p) as (L1 & L2 & L3 & L4).
    cbn zeta in *. rewrite H1, H2, H3, H4, L1, L2, L3, L4. repeat split; lia.
Qed.

(** With only the Bayesian vs Greedy row in the table, the six other
    pairings of the figure are reported, in order. *)
Example figure1_only_bg_warnings :
  s_out (figure1 Samples.table_only_bg) =
    [ Warning "bayesian" "bayesian"; Warning "bayesian" "random_commit";
      Warning "bayesian" "pure_random"; Warning "greedy" "greedy";
      Warning "greedy" "random_commit"; Warning "greedy" "pure_random" ].
Proof. reflexivity. Qed.

End PlotsFacts.

(** ** Pairings without a row, in both pipelines *)

Module MissingRows.
Import Table.

(** C5, amended: in the Figure 1 loop of the chart pipeline a pairing
    without a row gets win rate 0 and error bar 0 on both sides and a
    warning line, and the loop goes on: the four series have one entry per
    requested pairing whatever the table holds.  In the strategic-overlap
    loop of the report pipeline such a pairing is skipped: nothing is
    appended for it and nothing is printed. *)
Theorem missing_pairing_handling (neither : DataFrame) (p1_type p2_type : string) :
  pairing neither p1_type p2_type = [] ->
  (forall st,
     Plots.winrate_step neither st (p1_type, p2_type) =
       {| Plots.s_p1_wins := Plots.s_p1_wins st ++ [0%R];
          Plots.s_p2_wins := Plots.s_p2_wins st ++ [0%R];
          Plots.s_p1_errors := Plots.s_p1_errors st ++ [0%R];
          Plots.s_p2_errors := Plots.s_p2_errors st ++ [0%R];
          Plots.s_out := Plots.s_out st ++ [Warning p1_type p2_type] |}) /\
  (forall pairs,
     let s := Plots.winrate_loop neither pairs in
     List.length (Plots.s_p1_wins s) = List.length pairs /\
     List.length (Plots.s_p2_wins s) = List.length pairs /\
     List.length (Plots.s_p1_errors s) = List.length pairs /\
     List.length (Plots.s_p2_errors s) = List.length pairs) /\
  (forall st label, Res.overlap_step neither st (p1_type, p2_type, label) = st).
Proof.
  intros Habsent. split; [ | split].
  - intros st. now apply PlotsFacts.winrate_step_absent.
  - intros pairs. exact (PlotsFacts.fold_winrate_lengths neither pairs Plots.empty_series).
  - intros st label. now apply ResFacts.overlap_step_absent.
Qed.

Lemma missing_pairing_handling_witness :
  pairing (neither Samples.table_only_bg) "bayesian" "bayesian" = [] /\
  Plots.s_out (Plots.winrate_step (neither Samples.table_only_bg)
                 Plots.empty_series ("bayesian", "bayesian")) =
    [Warning "bayesian" "bayesian"] /\
  Res.overlap_step (neither Samples.table_only_bg) ([], []) ("bayesian", "bayesian", "B-B") =
    ([], []).
Proof.
  assert (Habsent : pairing (neither Samples.table_only_bg) "bayesian" "bayesian" = [])
    by reflexivity.
  destruct (missing_pairing_handling _ _ _ Habsent) as (Hstep & _ & Hskip).
  split; [exact Habsent | split].
  - rewrite Hstep. reflexivity.
  - apply Hskip.
Defined.

End MissingRows.

(** ** viz.py: labels, quadrants and the loader together *)

Module SummaryFacts.
Import Viz Summary.

(** *** Labels against the derived columns *)

(** X1: what a label says about the columns plotted beside it.  'Both
    High' rows have a combined progress of at least 140 (the reference
    line of the histogram), 'Both Stuck' rows stay below 100, 'Both Mid'
    rows lie in [100,140); in a 'P1 Ahead' row player one is strictly
    ahead, in a 'P2 Ahead' row player two; an 'Unknown' row has unequal
    progress values and a sum below 120. *)
Theorem draw_type_metrics (r : DrawDetailRow) :
  let t := draw_type (player_progress r) (opponent_progress r) in
  (t = BothHigh -> 140 <= progress_sum r) /\
  (t = BothStuck -> progress_sum r < 100) /\
  (t = BothMid -> 100 <= progress_sum r /\ progress_sum r < 140) /\
  (t = P1Ahead -> 0 < progress_diff r /\ progress_diff_abs r == progress_diff r) /\
  (t = P2Ahead -> progress_diff r < 0 /\ progress_diff_abs r == - progress_diff r) /\
  (t = Unknown -> 0 < progress_diff_abs r /\ progress_sum r < 120).
Proof.
  cbn zeta. unfold progress_sum, progress_diff_abs, progress_diff.
  set (p1 := player_progress r). set (p2 := opponent_progress r).
  VizFacts.draw_type_cases p1 p2;
    repeat split; intros; try discriminate; try qlra;
    try (apply Qabs_pos; qlra); try (apply Qabs_neg; qlra);
    apply Qabs_case; intros; qlra.
Qed.

Lemma draw_type_metrics_witness :
  draw_type 80 90 = BothHigh /\ 140 <= progress_sum (Samples.draw 80 90).
Proof.
  assert (E : draw_type 80 90 = BothHigh) by reflexivity.
  split; [exact E | ].
  exact (proj1 (draw_type_metrics (Samples.draw 80 90)) E).
Defined.

(** *** Quadrants against labels *)

Lemma mask_sum_ext (f g : DrawDetailRow -> bool) (df : DataFrame) :
  (forall r, f r = g r) -> mask_sum f df = mask_sum g df.
Proof.
  intros E. unfold mask_sum.
  induction df as [ | r df IH]; cbn [fold_right]; [reflexivity | ].
  now rewrite E, IH.
Qed.

Lemma mask_sum_bounds (f : DrawDetailRow -> bool) (df : DataFrame) :
  (0 <= mask_sum f df <= len df)%Z.
Proof.
  induction df as [ | r df IH].
  - cbn. unfold len. cbn. lia.
  - rewrite VizFacts.len_cons. cbn [mask_sum fold_right].
    fold (mask_sum f df). destruct (f r); cbn [Z.b2z]; lia.
Qed.

Lemma mask_sum_split3 (f a b c : DrawDetailRow -> bool) (df : DataFrame) :
  (forall r, Z.b2z (f r) = Z.b2z (a r) + Z.b2z (b r) + Z.b2z (c r))%Z ->
  (mask_sum f df = mask_sum a df + mask_sum b df + mask_sum c df)%Z.
Proof.
  intros E. induction df as [ | r df IH]; cbn [mask_sum fold_right]; [reflexivity | ].
  fold (mask_sum f df) (mask_sum a df) (mask_sum b df) (mask_sum c df).
  rewrite E, IH. lia.
Qed.

Ltac label_cases r :=
  intros r; unfold is_both_high, is_both_stuck, is_p1_ahead, is_p2_ahead;
  rewrite VizFacts.draw_type_tree, ?Qge_bool_negb_lt;
  destruct (player_progress r <? 50), (player_progress r <? 70),
           (opponent_progress r <? 50), (opponent_progress r <? 70); reflexivity.

(** X2: the summary and the chart agree.  The quadrant counts of
    [generate_summary_stats] are the label counts of
    [plot_symmetric_analysis]: 'Both High', 'P1 Ahead' and 'P2 Ahead'
    one for one, while the summary's 'Both Stuck (<70%)' is the sum of the
    chart's 'Both Stuck (<50%)', 'Both Mid (50-70%)' and 'Unknown'. *)
Theorem quadrants_match_labels (df : DataFrame) :
  both_high df = draw_type_count BothHigh df /\
  p1_ahead df = draw_type_count P1Ahead df /\
  p2_ahead df = draw_type_count P2Ahead df /\
  (both_stuck df =
     draw_type_count BothStuck df + draw_type_count BothMid df +
     draw_type_count Unknown df)%Z.
Proof.
  unfold both_high, p1_ahead, p2_ahead, both_stuck, draw_type_count.
  repeat split.
  - apply mask_sum_ext. label_cases r.
  - apply mask_sum_ext. label_cases r.
  - apply mask_sum_ext. label_cases r.
  - apply mask_sum_split3. label_cases r.
Qed.

(** *** Exact pattern matches *)

(** X3: the "Exact Pattern Matches" figure.  On an empty table the
    percentage is nan (0/0); on any other table it is a number between 0
    and 100, and the count never exceeds the number of rows. *)
Theorem exact_matches_pct_range (df : DataFrame) :
  (0 <= exact_matches df <= len df)%Z /\
  (df = [] -> exact_matches_pct df = Float64.NaN) /\
  (df <> [] ->
     exists q, exact_matches_pct df = Float64.Finite q /\ 0 <= q /\ q <= 100).
Proof.
  pose proof (mask_sum_bounds (fun r => overlap_pct r >=? 100) df) as Hb.
  fold (exact_matches df) in Hb.
  split; [exact Hb | split].
  - intros ->. reflexivity.
  - intros Hdf. pose proof (VizFacts.len_pos df Hdf) as Hlen.
    unfold exact_matches_pct.
    rewrite Float64Facts.true_divide_pos by assumption.
    eexists. split; [reflexivity | ].
    assert (HL : 0 < inject_Z (len df)).
    { change 0 with (inject_Z 0). rewrite <- Zlt_Qlt. assumption. }
    assert (H0 : 0 <= inject_Z (exact_matches df)).
    { change 0 with (inject_Z 0). rewrite <- Zle_Qle. lia. }
    assert (H1 : inject_Z (exact_matches df) <= inject_Z (len df)).
    { rewrite <- Zle_Qle. lia. }
    change (inject_Z 100) with 100.
    split.
    + apply Qmult_le_0_compat; [ | discriminate].
      apply Qle_shift_div_l; [assumption | ]. now rewrite Qmult_0_l.
    + setoid_replace 100 with (1 * 100) at 2 by reflexivity.
      apply Qmult_le_compat_r; [ | discriminate].
      apply Qle_shift_div_r; [assumption | ]. now rewrite Qmult_1_l.
Qed.

Lemma exact_matches_pct_range_witness :
  Samples.three_draws <> [] /\
  exists q, exact_matches_pct Samples.three_draws = Float64.Finite q /\ 0 <= q /\ q <= 100.
Proof.
  assert (Hdf : Samples.three_draws <> []) by discriminate.
  split; [exact Hdf | ].
  exact (proj2 (proj2 (exact_matches_pct_range Samples.three_draws)) Hdf).
Defined.

End SummaryFacts.

(** ** viz.py: more on the loader *)

Module LoaderFacts.
Import Viz Summary.

Lemma scaled_column_maximum (col : list Q) (m : Q) :
  In m col -> Forall (fun v => v <= m) col ->
  In (m * 100) (map (fun v => v * 100) col) /\
  Forall (fun v => v <= m * 100) (map (fun v => v * 100) col).
Proof.
  intros Hin Hall. split.
  - apply (in_map (fun v => v * 100)). assumption.
  - apply Forall_map. revert Hall. apply Forall_impl.
    intros v Hv. apply Qmult_le_compat_r; [assumption | discriminate].
Qed.

Example load_data_twice_tiny_fractions :
  map player_progress (load_data MoreSamples.tiny_fractions) = [0.005 * 100] /\
  map player_progress (load_data (load_data MoreSamples.tiny_fractions)) =
    [0.005 * 100 * 100].
Proof. split; reflexivity. Qed.

(** The margin of X4: the float64 nearest to 0.01, times 100, is exactly
    1.0, so a table whose largest value is 0.01 is scaled a second time. *)
Example one_hundredth_times_100 :
  exists q,
    Binary64.to_Q (PrimFloat.mul (PrimFloat.div (Binary64.of_count 1) (Binary64.of_count 100))
                                 (Binary64.of_count 100)) = Some q /\
    q == 1.
Proof. eexists. split; vm_compute; reflexivity. Qed.

(** X4: loading twice is loading once, as soon as the largest
    player_progress value is at least 0.011.  A table in percent is never
    touched; a table of fractions is scaled once and its maximum is then
    above 1, with a margin that rounding cannot close.  (At 0.01 and
    below the second pass scales again, see [one_hundredth_times_100] and
    [load_data_twice_tiny_fractions].) *)
Theorem load_data_idempotent (df : DataFrame) (m : Q) :
  In m (map player_progress df) ->
  Forall (fun v => v <= m) (map player_progress df) ->
  0.011 <= m ->
  load_data (load_data df) = load_data df.
Proof.
  intros Hin Hall Hm.
  pose proof (VizFacts.max_le_of_maximum _ _ 1 Hin Hall) as E.
  destruct (Qle_bool_reflect m 1) as [Hle | Hgt].
  - destruct (VizFacts.load_data_scaled df E) as (Hp & _ & _).
    destruct (scaled_column_maximum _ _ Hin Hall) as (Hin' & Hall').
    rewrite <- Hp in Hin', Hall'.
    pose proof (VizFacts.max_le_of_maximum _ _ 1 Hin' Hall') as E'.
    destruct (Qle_bool_reflect (m * 100) 1) as [Hle' | _]; [qlra | ].
    unfold load_data at 1. now rewrite E'.
  - unfold load_data at 2. rewrite E.
    unfold load_data. now rewrite E.
Qed.

Lemma load_data_idempotent_witness :
  In 0.8 (map player_progress Samples.fractions) /\
  Forall (fun v => v <= 0.8) (map player_progress Samples.fractions) /\
  0.011 <= 0.8 /\
  load_data (load_data Samples.fractions) = load_data Samples.fractions.
Proof.
  assert (Hin : In 0.8 (map player_progress Samples.fractions))
    by (left; reflexivity).
  assert (Hall : Forall (fun v => v <= 0.8) (map player_progress Samples.fractions))
    by (repeat constructor; discriminate).
  assert (Hm : 0.011 <= 0.8) by discriminate.
  split; [exact Hin | split; [exact Hall | split; [exact Hm | ]]].
  exact (load_data_idempotent Samples.fractions 0.8 Hin Hall Hm).
Defined.

(** X5: a table whose progress values are all fractions in [0,1] comes
    out of the loader with all progress values in [0,100], in both
    columns. *)
Theorem load_data_fractions_to_percentages (df : DataFrame) :
  Forall (fun r => is_fraction (player_progress r) /\ is_fraction (opponent_progress r)) df ->
  Forall (fun r => is_percentage (player_progress r) /\ is_percentage (opponent_progress r))
         (load_data df).
Proof.
  intros Hfrac.
  destruct df as [ | r0 df0]; [constructor | ].
  set (df := r0 :: df0) in *.
  destruct (VizFacts.series_max_nonempty (map player_progress df)) as [m Hm];
    [discriminate | ].
  destruct (VizFacts.series_max_spec _ _ Hm) as (Hin & _).
  apply in_map_iff in Hin. destruct Hin as (r & <- & Hr).
  rewrite Forall_forall in Hfrac.
  destruct (Hfrac r Hr) as ((_ & Hle) & _).
  unfold load_data. rewrite Hm. cbn [max_le].
  destruct (Qle_bool_reflect (player_progress r) 1) as [_ | ?]; [ | contradiction].
  rewrite map_map. apply Forall_map. apply Forall_forall.
  intros x Hx. destruct (Hfrac x Hx) as ((Hp0 & Hp1) & (Ho0 & Ho1)).
  unfold is_percentage. cbn. repeat split; qlra.
Qed.

Lemma load_data_fractions_to_percentages_witness :
  Forall (fun r => is_fraction (player_progress r) /\ is_fraction (opponent_progress r))
         Samples.fractions /\
  Forall (fun r => is_percentage (player_progress r) /\ is_percentage (opponent_progress r))
         (load_data Samples.fractions).
Proof.
  assert (H : Forall (fun r => is_fraction (player_progress r) /\
                               is_fraction (opponent_progress r)) Samples.fractions).
  { repeat constructor; discriminate. }
  split; [exact H | ].
  exact (load_data_fractions_to_percentages Samples.fractions H).
Defined.

End LoaderFacts.

(** ** res.py: selections and "Range" lines *)

Module ReportFacts.
Import Table Report.

(** *** Which row a section reads *)

Lemma pairing_neither_filter (df : DataFrame) (p1 p2 : string) :
  pairing (neither df) p1 p2 =
    filter (fun r => (config_name r =? "neither")%string &&
                     ((player1_type r =? p1)%string && (player2_type r =? p2)%string)) df.
Proof.
  unfold pairing, neither.
  induction df as [ | r df IH]; cbn [filter]; [reflexivity | ].
  destruct (config_name r =? "neither")%string; cbn [filter andb].
  - destruct ((player1_type r =? p1)%string && (player2_type r =? p2)%string);
      now rewrite IH.
  - exact IH.
Qed.

Lemma hd_error_filter {A : Type} (f : A -> bool) (l : list A) :
  hd_error (filter f l) = find f l.
Proof.
  induction l as [ | a l IH]; cbn; [reflexivity | ].
  destruct (f a); [reflexivity | exact IH].
Qed.

(** X6: the row a section reads for a pairing is the first row of the
    file, in file order, whose configuration is 'neither' and whose two
    player types are the requested ones (later duplicates are ignored);
    selecting the pairing first and the configuration second gives the
    same rows. *)
Theorem baseline_row_is_first_match (df : DataFrame) (p1 p2 : string) :
  iloc0 (pairing (neither df) p1 p2) =
    find (fun r => (config_name r =? "neither")%string &&
                   ((player1_type r =? p1)%string && (player2_type r =? p2)%string)) df /\
  pairing (neither df) p1 p2 = neither (pairing df p1 p2).
Proof.
  split.
  - unfold iloc0. rewrite pairing_neither_filter. apply hd_error_filter.
  - unfold pairing, neither.
    induction df as [ | r df IH]; cbn [filter]; [reflexivity | ].
    destruct (config_name r =? "neither")%string eqn:Ec;
      destruct ((player1_type r =? p1)%string && (player2_type r =? p2)%string) eqn:Ep;
      cbn [filter]; rewrite ?Ec, ?Ep, IH; reflexivity.
Qed.

(** *** min and max *)

Lemma fold_min_spec (tl : list Q) (x : Q) :
  let m := fold_left (fun m y => if y <? m then y else m) tl x in
  (m = x \/ In m tl) /\ m <= x /\ Forall (fun y => m <= y) tl.
Proof.
  revert x. induction tl as [ | y tl IH]; intros x; cbn.
  - split; [now left | split; [apply Qle_refl | constructor]].
  - destruct (IH (if y <? x then y else x)) as (Hin & Hle & Hall).
    threshold y x.
    + repeat split.
      * destruct Hin as [-> | Hin]; auto.
      * qlra.
      * constructor; assumption.
    + repeat split.
      * destruct Hin as [-> | Hin]; auto.
      * assumption.
      * constructor; [qlra | assumption].
Qed.

Lemma py_min_spec (l : list Q) (m : Q) :
  py_min l = Ok m -> In m l /\ Forall (fun y => m <= y) l.
Proof.
  destruct l as [ | x tl]; cbn; [discriminate | ].
  intros [= <-].
  destruct (fold_min_spec tl x) as (Hin & Hle & Hall).
  split; [ | constructor; assumption].
  destruct Hin as [-> | Hin]; auto.
Qed.

Lemma py_max_spec (l : list Q) (m : Q) :
  py_max l = Ok m -> In m l /\ Forall (fun y => y <= m) l.
Proof.
  destruct l as [ | x tl]; cbn; [discriminate | ].
  intros [= <-].
  destruct (VizFacts.fold_max_spec tl x) as (Hin & Hle & Hall).
  split; [ | constructor; assumption].
  destruct Hin as [-> | Hin]; auto.
Qed.

Lemma range_of_empty : range_of [] = Raise "ValueError".
Proof. reflexivity. Qed.

Lemma range_of_nonempty (l : list Q) :
  l <> [] ->
  exists lo hi,
    range_of l = Ok (lo, hi) /\ In lo l /\ In hi l /\
    Forall (fun v => lo <= v /\ v <= hi) l.
Proof.
  intros Hl. destruct l as [ | x tl]; [congruence | ].
  unfold range_of.
  destruct (py_min (x :: tl)) as [lo | e] eqn:Emin; [ | discriminate].
  destruct (py_max (x :: tl)) as [hi | e] eqn:Emax; [ | discriminate].
  destruct (py_min_spec _ _ Emin) as (Hlo & Hall_lo).
  destruct (py_max_spec _ _ Emax) as (Hhi & Hall_hi).
  exists lo, hi. repeat split; try assumption.
  rewrite Forall_forall in *. intros v Hv. split; auto.
Qed.
(** *** The collecting loops *)

Lemma collect_step_rows (column : ResultRow -> Q) (neither : DataFrame)
    (acc : list Q) (p : string * string * string) :
  collect_step column neither acc p =
    acc ++ map column (firstn 1 (pairing neither (fst (fst p)) (snd (fst p)))).
Proof.
  destruct p as [[p1 p2] label]. unfold collect_step. cbn [fst snd].
  destruct (pairing neither p1 p2); cbn; [now rewrite app_nil_r | reflexivity].
Qed.

Lemma fold_collect_rows (column : ResultRow -> Q) (neither : DataFrame)
    (pairs : list (string * string * string)) (acc : list Q) :
  fold_left (collect_step column neither) pairs acc =
    acc ++ map column (first_rows neither pairs).
Proof.
  revert acc. induction pairs as [ | p pairs IH]; intros acc; cbn [fold_left].
  - cbn. now rewrite app_nil_r.
  - rewrite IH, collect_step_rows. unfold first_rows. cbn [flat_map].
    now rewrite map_app, app_assoc.
Qed.

Lemma collect_rows (column : ResultRow -> Q) (neither : DataFrame)
    (pairs : list (string * string * string)) :
  collect column neither pairs = map column (first_rows neither pairs).
Proof. unfold collect. now rewrite fold_collect_rows. Qed.

Lemma first_rows_nil (neither : DataFrame) (pairs : list (string * string * string)) :
  first_rows neither pairs = [] <-> existsb (present neither) pairs = false.
Proof.
  unfold first_rows.
  induction pairs as [ | [[p1 p2] label] pairs IH]; cbn [flat_map existsb present fst snd].
  - tauto.
  - destruct (pairing neither p1 p2) as [ | r rest]; cbn.
    + exact IH.
    + split; discriminate.
Qed.

Lemma collect_nil (column : ResultRow -> Q) (neither : DataFrame)
    (pairs : list (string * string * string)) :
  collect column neither pairs = [] <-> existsb (present neither) pairs = false.
Proof.
  rewrite collect_rows, <- first_rows_nil.
  destruct (first_rows neither pairs); cbn; split; congruence.
Qed.

Lemma range_of_raises (l : list Q) :
  range_of l = Raise "ValueError" <-> l = [].
Proof.
  split.
  - intros H. destruct l as [ | x tl]; [reflexivity | ].
    destruct (range_of_nonempty (x :: tl)) as (lo & hi & E & _); [discriminate | ].
    rewrite E in H. discriminate.
  - intros ->. reflexivity.
Qed.

(** The overlaps gathered by the loop of section 4.3.1. *)
Lemma fold_overlap_step_fst (neither : DataFrame)
    (pairs : list (string * string * string)) (st : list Q * list line) :
  fst (fold_left (Res.overlap_step neither) pairs st) =
    fold_left (collect_step draw_pattern_overlap_pct neither) pairs (fst st).
Proof.
  revert st. induction pairs as [ | [[p1 p2] label] pairs IH]; intros [ov out];
    cbn [fold_left]; [reflexivity | ].
  rewrite IH. f_equal. unfold Res.overlap_step, collect_step.
  destruct (pairing neither p1 p2); reflexivity.
Qed.

Lemma overlap_loop_collect (neither : DataFrame) (pairs : list (string * string * string)) :
  fst (Res.overlap_loop neither pairs) = collect draw_pattern_overlap_pct neither pairs.
Proof. unfold Res.overlap_loop. now rewrite fold_overlap_step_fst. Qed.

Lemma strategic_overlap_raises (df : DataFrame) :
  Res.strategic_overlap df = Raise "ValueError" <->
  collect draw_pattern_overlap_pct (neither df) Res.strategic_pairs = [].
Proof.
  rewrite <- overlap_loop_collect. unfold Res.strategic_overlap.
  destruct (Res.overlap_loop (neither df) Res.strategic_pairs) as [ov out]. cbn [fst].
  destruct ov as [ | x tl].
  - cbn. tauto.
  - cbn. split; discriminate.
Qed.

(** X7: each "Range" line of the report takes [min] and [max] of the
    values gathered for its pairings, and raises ValueError exactly when
    none of these pairings has a 'neither' row: the strategic and the
    baseline overlap ranges (three pairings each), the reshuffle range
    (the first six pairings) and the draw-rate range (the first three). *)
Theorem range_lines_raise_iff_no_rows (df : DataFrame) :
  (Res.strategic_overlap df = Raise "ValueError" <->
     existsb (present (neither df)) Res.strategic_pairs = false) /\
  (baseline_overlap_range df = Raise "ValueError" <->
     existsb (present (neither df)) baseline_pairs = false) /\
  (reshuffle_range df = Raise "ValueError" <->
     existsb (present (neither df)) (firstn 6 pairings) = false) /\
  (draw_rate_range df = Raise "ValueError" <->
     existsb (present (neither df)) (firstn 3 pairings) = false).
Proof.
  unfold baseline_overlap_range, reshuffle_range, draw_rate_range.
  rewrite strategic_overlap_raises, !range_of_raises, !collect_nil.
  repeat split; auto.
Qed.

(** X8: when a "Range" line is printed, its two ends are values of the
    list (the column of the first 'neither' row of each pairing that has
    one, in the order of the pairings) and every value of the list lies
    between them. *)
Theorem range_line_brackets (column : ResultRow -> Q) (df : DataFrame)
    (pairs : list (string * string * string)) (lo hi : Q) :
  range_of (collect column (neither df) pairs) = Ok (lo, hi) ->
  let values := map column (first_rows (neither df) pairs) in
  collect column (neither df) pairs = values /\
  In lo values /\ In hi values /\
  Forall (fun v => lo <= v /\ v <= hi) values.
Proof.
  intros Hrange. cbn zeta. rewrite <- collect_rows.
  split; [reflexivity | ].
  destruct (collect column (neither df) pairs) as [ | x tl] eqn:E;
    [discriminate | ].
  destruct (range_of_nonempty (x :: tl)) as (lo' & hi' & E' & Hlo & Hhi & Hall);
    [discriminate | ].
  rewrite E' in Hrange. injection Hrange as <- <-.
  repeat split; assumption.
Qed.

Lemma range_line_brackets_witness :
  range_of (collect draw_pct (neither Samples.table_typical) (firstn 3 pairings)) =
    Ok (100 * 800 / 1000, 100 * 900 / 1000) /\
  Forall (fun v => 100 * 800 / 1000 <= v /\ v <= 100 * 900 / 1000)
    (map draw_pct (first_rows (neither Samples.table_typical) (firstn 3 pairings))).
Proof.
  assert (H : range_of (collect draw_pct (neither Samples.table_typical)
                          (firstn 3 pairings)) = Ok (100 * 800 / 1000, 100 * 900 / 1000)) by reflexivity.
  split; [exact H | ].
  exact (proj2 (proj2 (proj2 (range_line_brackets draw_pct Samples.table_typical
                                (firstn 3 pairings) _ _ H)))).
Defined.

End ReportFacts.

(** ** res.py: all Bayesian vs Greedy configurations *)

Module WinRateFacts.
Import Table Report ReportFacts.
(** *** The loop *)

Lemma fold_win_rates (rows : DataFrame) (wr dr : list Q) :
  fold_left win_rates_step rows (wr, dr) =
    (wr ++ map p1_win_rate_decisive (filter has_decisive rows),
     dr ++ map draw_pct (filter has_decisive rows)).
Proof.
  revert wr dr. induction rows as [ | r rows IH]; intros wr dr; cbn [fold_left filter].
  - cbn. now rewrite !app_nil_r.
  - assert (Hs : win_rates_step (wr, dr) r =
                   if has_decisive r
                   then (wr ++ [p1_win_rate_decisive r], dr ++ [draw_pct r])
                   else (wr, dr)) by reflexivity.
    rewrite Hs. destruct (has_decisive r); rewrite IH; cbn [map];
      rewrite <- ?app_assoc; reflexivity.
Qed.

Lemma win_rates_loop_filter (bg_all : DataFrame) :
  win_rates_loop bg_all =
    (map p1_win_rate_decisive (filter has_decisive bg_all),
     map draw_pct (filter has_decisive bg_all)).
Proof. unfold win_rates_loop. now rewrite fold_win_rates. Qed.

(** *** index *)

Lemma index_In (x : Q) (l : list Q) :
  In x l -> exists i, index x l = Some i.
Proof.
  induction l as [ | y tl IH]; cbn [In index]; [contradiction | ].
  intros [-> | Hin].
  - rewrite (proj2 (Qeq_bool_iff x x) (Qeq_refl x)). eexists; reflexivity.
  - destruct (Qeq_bool y x); [eexists; reflexivity | ].
    destruct (IH Hin) as [i ->]. eexists; reflexivity.
Qed.

Lemma index_nth (x : Q) (l : list Q) (i : nat) :
  index x l = Some i -> (i < List.length l)%nat /\ nth i l 0 == x.
Proof.
  revert i. induction l as [ | y tl IH]; intros i; cbn [index]; [discriminate | ].
  destruct (Qeq_bool y x) eqn:E.
  - intros [= <-]. cbn [List.length nth]. split; [lia | now apply Qeq_bool_iff].
  - destruct (index x tl) as [j | ]; cbn [option_map]; [ | discriminate].
    intros [= <-]. destruct (IH j eq_refl). cbn [List.length nth].
    split; [lia | assumption].
Qed.

(** *** The three ranges *)

Lemma ranges_partition (win_rates : list Q) :
  (List.length (below_52 win_rates) + List.length (clustered_52_68 win_rates) +
   List.length (above_68 win_rates) = List.length win_rates)%nat.
Proof.
  unfold below_52, clustered_52_68, above_68.
  induction win_rates as [ | wr l IH]; cbn [filter List.length]; [reflexivity | ].
  change (52 <=? wr) with (wr >=? 52). change (wr <=? 68) with (68 >=? wr).
  rewrite !Qge_bool_negb_lt.
  threshold wr 52; threshold 68 wr; cbn [negb andb List.length]; try lia.
  qlra.
Qed.

(** *** Mean and median *)

Lemma sum_bounds (l : list Q) (lo hi : Q) :
  Forall (fun v => lo <= v /\ v <= hi) l ->
  inject_Z (Z.of_nat (List.length l)) * lo <= fold_right Qplus 0 l /\
  fold_right Qplus 0 l <= inject_Z (Z.of_nat (List.length l)) * hi.
Proof.
  induction 1 as [ | v l [Hlo Hhi] _ [IHlo IHhi]].
  - cbn [List.length fold_right]. change (inject_Z (Z.of_nat 0)) with 0.
    split; qlra.
  - cbn [List.length fold_right]. rewrite Nat2Z.inj_succ, <- Z.add_1_r, inject_Z_plus.
    change (inject_Z 1) with 1.
    set (L := inject_Z (Z.of_nat (List.length l))) in *.
    set (s := fold_right Qplus 0 l) in *.
    split; qlra.
Qed.

Lemma np_mean_bounds (l : list Q) (lo hi : Q) :
  l <> [] -> Forall (fun v => lo <= v /\ v <= hi) l ->
  exists a, np_mean l = Float64.Finite a /\ lo <= a /\ a <= hi.
Proof.
  intros Hl Hall. destruct (sum_bounds l lo hi Hall) as [Hlo Hhi].
  destruct l as [ | x tl]; [congruence | ].
  eexists. split; [reflexivity | ].
  set (L := inject_Z (Z.of_nat (List.length (x :: tl)))) in *.
  assert (HL : 0 < L).
  { subst L. change 0 with (inject_Z 0). rewrite <- Zlt_Qlt. cbn [List.length]. lia. }
  split.
  - apply Qle_shift_div_l; [assumption | ]. now rewrite Qmult_comm.
  - apply Qle_shift_div_r; [assumption | ]. now rewrite Qmult_comm.
Qed.

Lemma insert_sorted_In (x y : Q) (l : list Q) :
  In x (insert_sorted y l) -> x = y \/ In x l.
Proof.
  induction l as [ | z tl IH]; cbn.
  - intros [<- | []]. now left.
  - destruct (y <=? z); cbn.
    + intros [<- | H]; auto.
    + intros [<- | H]; auto. destruct (IH H); auto.
Qed.

Lemma sorted_In (x : Q) (l : list Q) : In x (sorted l) -> In x l.
Proof.
  unfold sorted. induction l as [ | y tl IH]; cbn; [auto | ].
  intros H. apply insert_sorted_In in H. destruct H as [-> | H]; auto.
Qed.

Lemma insert_sorted_length (x : Q) (l : list Q) :
  List.length (insert_sorted x l) = S (List.length l).
Proof.
  induction l as [ | y tl IH]; cbn; [reflexivity | ].
  destruct (x <=? y); cbn; [reflexivity | now rewrite IH].
Qed.

Lemma sorted_length (l : list Q) : List.length (sorted l) = List.length l.
Proof.
  unfold sorted. induction l as [ | y tl IH]; cbn; [reflexivity | ].
  now rewrite insert_sorted_length, IH.
Qed.

Lemma nth_sorted_bounds (l : list Q) (lo hi : Q) (i : nat) :
  Forall (fun v => lo <= v /\ v <= hi) l -> (i < List.length l)%nat ->
  lo <= nth i (sorted l) 0 /\ nth i (sorted l) 0 <= hi.
Proof.
  intros Hall Hi. rewrite Forall_forall in Hall.
  apply Hall, sorted_In, nth_In. now rewrite sorted_length.
Qed.

Lemma np_median_bounds (l : list Q) (lo hi : Q) :
  l <> [] -> Forall (fun v => lo <= v /\ v <= hi) l ->
  exists b, np_median l = Float64.Finite b /\ lo <= b /\ b <= hi.
Proof.
  intros Hl Hall. destruct l as [ | x tl]; [congruence | ].
  set (l := x :: tl) in *. unfold np_median. fold l.
  assert (Hn : (0 < List.length l)%nat) by (cbn; lia).
  assert (Hmid : (List.length l / 2 < List.length l)%nat)
    by (apply Nat.div_lt; lia).
  destruct (nth_sorted_bounds l lo hi (List.length l / 2) Hall Hmid) as [H1 H2].
  destruct (Nat.even (List.length l)).
  - assert (Hmid' : (List.length l / 2 - 1 < List.length l)%nat) by lia.
    destruct (nth_sorted_bounds l lo hi (List.length l / 2 - 1) Hall Hmid') as [H3 H4].
    eexists. split; [reflexivity | ].
    split.
    + apply Qle_shift_div_l; [reflexivity | qlra].
    + apply Qle_shift_div_r; [reflexivity | qlra].
  - eexists. split; [reflexivity | ]. split; assumption.
Qed.

(** *** The block as a whole *)

Lemma win_rate_section_unfold (df : DataFrame) :
  let bg_all := pairing df "bayesian" "greedy" in
  let win_rates := map p1_win_rate_decisive (filter has_decisive bg_all) in
  win_rate_section df =
    match win_rates with
    | [] => Ok None
    | _ =>
        match py_min win_rates, py_max win_rates, highest_config bg_all win_rates with
        | Ok lo, Ok hi, Ok row =>
            Ok (Some {| configurations := List.length bg_all;
                        minimum := lo;
                        maximum := hi;
                        mean := np_mean win_rates;
                        median := np_median win_rates;
                        n_below_52 := List.length (below_52 win_rates);
                        n_52_68 := List.length (clustered_52_68 win_rates);
                        n_above_68 := List.length (above_68 win_rates);
                        max_row := row |})
        | Raise e, _, _ | _, Raise e, _ | _, _, Raise e => Raise e
        end
    end.
Proof.
  cbn zeta. unfold win_rate_section. rewrite win_rates_loop_filter. reflexivity.
Qed.

Lemma py_min_nonempty (l : list Q) : l <> [] -> exists m, py_min l = Ok m.
Proof. destruct l; [congruence | eexists; reflexivity]. Qed.

Lemma py_max_nonempty (l : list Q) : l <> [] -> exists m, py_max l = Ok m.
Proof. destruct l; [congruence | eexists; reflexivity]. Qed.

(** The lookup of the highest configuration finds a row: the position
    of the maximum in [win_rates] is within [bg_all], which is at least
    as long. *)
Lemma highest_config_ok (bg_all : DataFrame) :
  let win_rates := map p1_win_rate_decisive (filter has_decisive bg_all) in
  win_rates <> [] ->
  exists hi i row,
    py_max win_rates = Ok hi /\
    index hi win_rates = Some i /\
    nth_error bg_all i = Some row /\
    highest_config bg_all win_rates = Ok row.
Proof.
  cbn zeta. set (win_rates := map p1_win_rate_decisive (filter has_decisive bg_all)).
  intros Hne.
  destruct (py_max_nonempty win_rates Hne) as [hi Hhi].
  destruct (py_max_spec _ _ Hhi) as [Hin _].
  destruct (index_In _ _ Hin) as [i Hi].
  destruct (index_nth _ _ _ Hi) as [Hlt _].
  assert (Hlen : (i < List.length bg_all)%nat).
  { subst win_rates. rewrite length_map in Hlt.
    pose proof (filter_length_le has_decisive bg_all). lia. }
  destruct (nth_error bg_all i) as [row | ] eqn:Hrow;
    [ | apply nth_error_None in Hrow; lia].
  exists hi, i, row. repeat split; try assumption.
  unfold highest_config. now rewrite Hhi, Hi, Hrow.
Qed.

Lemma no_decisive_iff (bg_all : DataFrame) :
  map p1_win_rate_decisive (filter has_decisive bg_all) = [] <->
  Forall (fun r => (decisive_games r <= 0)%Z) bg_all.
Proof.
  induction bg_all as [ | r l IH]; cbn [filter map].
  - split; [constructor | reflexivity].
  - unfold has_decisive at 1.
    destruct (Z.gtb_spec (decisive_games r) 0) as [Hpos | Hnon]; cbn [map].
    + split; [discriminate | ]. intros H. inversion H; subst. lia.
    + rewrite IH. split.
      * intros H. constructor; assumption.
      * intros H. now inversion H.
Qed.

(** X9: the block on all Bayesian vs Greedy configurations never raises.
    It is skipped exactly when no such configuration has decisive games;
    otherwise [min], [max], the position of the maximum and the row
    looked up at that position all exist. *)
Theorem win_rate_section_never_raises (df : DataFrame) :
  exists o,
    win_rate_section df = Ok o /\
    (o = None <->
       Forall (fun r => (decisive_games r <= 0)%Z) (pairing df "bayesian" "greedy")).
Proof.
  rewrite win_rate_section_unfold. cbn zeta.
  set (bg_all := pairing df "bayesian" "greedy").
  pose proof (no_decisive_iff bg_all) as Hnone.
  destruct (map p1_win_rate_decisive (filter has_decisive bg_all)) as [ | x tl] eqn:E.
  - exists None. split; [reflexivity | tauto].
  - assert (Hne : map p1_win_rate_decisive (filter has_decisive bg_all) <> [])
      by (rewrite E; discriminate).
    destruct (highest_config_ok bg_all Hne) as (hi & i & row & Hhi & _ & _ & Hrow).
    rewrite E in Hhi, Hrow.
    destruct (py_min_nonempty (x :: tl)) as [lo Hlo]; [discriminate | ].
    rewrite Hlo, Hhi, Hrow.
    eexists. split; [reflexivity | ].
    split; [discriminate | ]. intros H. apply Hnone in H. discriminate.
Qed.

(** What a printed block holds. *)
Lemma win_rate_section_inv (df : DataFrame) (st : win_rate_stats) :
  win_rate_section df = Ok (Some st) ->
  let bg_all := pairing df "bayesian" "greedy" in
  let win_rates := map p1_win_rate_decisive (filter has_decisive bg_all) in
  win_rates <> [] /\
  configurations st = List.length bg_all /\
  py_min win_rates = Ok (minimum st) /\
  py_max win_rates = Ok (maximum st) /\
  mean st = np_mean win_rates /\
  median st = np_median win_rates /\
  n_below_52 st = List.length (below_52 win_rates) /\
  n_52_68 st = List.length (clustered_52_68 win_rates) /\
  n_above_68 st = List.length (above_68 win_rates) /\
  highest_config bg_all win_rates = Ok (max_row st).
Proof.
  rewrite win_rate_section_unfold. cbn zeta.
  set (bg_all := pairing df "bayesian" "greedy").
  set (win_rates := map p1_win_rate_decisive (filter has_decisive bg_all)).
  destruct win_rates as [ | x tl] eqn:E; [discriminate | ].
  destruct (py_min (x :: tl)) as [lo | e1]; [ | discriminate].
  destruct (py_max (x :: tl)) as [hi | e2]; [ | discriminate].
  destruct (highest_config bg_all (x :: tl)) as [row | e3]; [ | discriminate].
  intros [= <-]. cbn. repeat split. discriminate.
Qed.

Lemma has_decisive_all (bg_all : DataFrame) :
  Forall (fun r => (0 < decisive_games r)%Z) bg_all ->
  filter has_decisive bg_all = bg_all.
Proof.
  induction 1 as [ | r l Hr _ IH]; cbn [filter]; [reflexivity | ].
  unfold has_decisive at 1.
  destruct (Z.gtb_spec (decisive_games r) 0); [now rewrite IH | lia].
Qed.

(** X10: the three ranges "below 52%", "52-68%" and "above 68%" split
    the configurations that have decisive games: every such
    configuration is counted in exactly one of them, and the three counts
    never exceed the number of configurations announced. *)
Theorem win_rate_ranges_partition (df : DataFrame) (st : win_rate_stats) :
  win_rate_section df = Ok (Some st) ->
  (n_below_52 st + n_52_68 st + n_above_68 st =
     List.length (filter has_decisive (pairing df "bayesian" "greedy")))%nat /\
  (n_below_52 st + n_52_68 st + n_above_68 st <= configurations st)%nat.
Proof.
  intros H. destruct (win_rate_section_inv df st H)
    as (_ & Hc & _ & _ & _ & _ & Hb & Hm & Ha & _).
  rewrite Hb, Hm, Ha, Hc, ranges_partition, length_map.
  split; [reflexivity | apply filter_length_le].
Qed.

Lemma win_rate_ranges_partition_witness :
  exists st,
    win_rate_section Samples.table_typical = Ok (Some st) /\
    (n_below_52 st + n_52_68 st + n_above_68 st = 1)%nat.
Proof.
  assert (E : exists st, win_rate_section Samples.table_typical = Ok (Some st))
    by (eexists; reflexivity).
  destruct E as [st E]. exists st. split; [exact E | ].
  exact (proj1 (win_rate_ranges_partition Samples.table_typical st E)).
Defined.

(** X11: the minimum and the maximum printed are win rates of
    configurations with decisive games and bracket the win rate of every
    such configuration; the mean and the median printed are numbers
    (never nan), and the median lies between the minimum and the
    maximum. *)
Theorem win_rate_stats_bracket (df : DataFrame) (st : win_rate_stats) :
  win_rate_section df = Ok (Some st) ->
  let decisive := filter has_decisive (pairing df "bayesian" "greedy") in
  In (minimum st) (map p1_win_rate_decisive decisive) /\
  In (maximum st) (map p1_win_rate_decisive decisive) /\
  Forall (fun r => minimum st <= p1_win_rate_decisive r /\
                   p1_win_rate_decisive r <= maximum st) decisive /\
  (exists a, mean st = Float64.Finite a) /\
  (exists b, median st = Float64.Finite b /\ minimum st <= b /\ b <= maximum st).
Proof.
  intros H. cbn zeta.
  destruct (win_rate_section_inv df st H)
    as (Hne & _ & Hlo & Hhi & Hmean & Hmed & _).
  set (win_rates := map p1_win_rate_decisive
                      (filter has_decisive (pairing df "bayesian" "greedy"))) in *.
  destruct (py_min_spec _ _ Hlo) as (Hin_lo & Hall_lo).
  destruct (py_max_spec _ _ Hhi) as (Hin_hi & Hall_hi).
  assert (Hall : Forall (fun v => minimum st <= v /\ v <= maximum st) win_rates).
  { rewrite Forall_forall in *. intros v Hv. split; auto. }
  split; [assumption | split; [assumption | split]].
  - subst win_rates. now apply Forall_map in Hall.
  - split.
    + rewrite Hmean.
      destruct (np_mean_bounds _ _ _ Hne Hall) as (a & Ea & _). now exists a.
    + rewrite Hmed. now apply np_median_bounds.
Qed.

Lemma win_rate_stats_bracket_witness :
  exists st,
    win_rate_section Samples.table_typical = Ok (Some st) /\
    exists b, median st = Float64.Finite b /\ minimum st <= b /\ b <= maximum st.
Proof.
  assert (E : exists st, win_rate_section Samples.table_typical = Ok (Some st))
    by (eexists; reflexivity).
  destruct E as [st E]. exists st. split; [exact E | ].
  exact (proj2 (proj2 (proj2 (proj2
           (win_rate_stats_bracket Samples.table_typical st E))))).
Defined.

(** The row reported as "Highest win rate config" when a configuration
    without decisive games precedes the best one: the position found in
    [win_rates] is used in [bg_all], which still holds the skipped row. *)
Example highest_config_after_skipped_row :
  exists st,
    win_rate_section MoreSamples.table_skipped_config = Ok (Some st) /\
    max_row st = MoreSamples.bg_all_drawn /\
    maximum st == 55 /\
    p1_win_rate_decisive (max_row st) == 0.
Proof. eexists. split; [reflexivity | ]. repeat split. Qed.

(** X12: when every Bayesian vs Greedy configuration has decisive games,
    the row reported as "Highest win rate config" is a row of the table
    whose win rate is the maximum printed.  (The position of the maximum
    is found in the list of win rates and used in the table; the two only
    line up if no configuration was skipped, see
    [highest_config_after_skipped_row].) *)
Theorem highest_config_correct (df : DataFrame) (st : win_rate_stats) :
  win_rate_section df = Ok (Some st) ->
  Forall (fun r => (0 < decisive_games r)%Z) (pairing df "bayesian" "greedy") ->
  In (max_row st) (pairing df "bayesian" "greedy") /\
  p1_win_rate_decisive (max_row st) == maximum st.
Proof.
  intros H Hall.
  destruct (win_rate_section_inv df st H)
    as (Hne & _ & _ & Hhi & _ & _ & _ & _ & _ & Hrow).
  set (bg_all := pairing df "bayesian" "greedy") in *.
  destruct (highest_config_ok bg_all Hne) as (hi & i & row & Hhi' & Hi & Hnth & Hrow').
  rewrite Hhi in Hhi'. injection Hhi' as <-.
  rewrite Hrow in Hrow'. injection Hrow' as <-.
  split; [eapply nth_error_In; eassumption | ].
  destruct (index_nth _ _ _ Hi) as [_ Hval].
  rewrite (has_decisive_all bg_all Hall) in Hval.
  rewrite (nth_error_nth _ _ 0 (map_nth_error p1_win_rate_decisive _ _ Hnth)) in Hval.
  exact Hval.
Qed.

Lemma highest_config_correct_witness :
  Forall (fun r => (0 < decisive_games r)%Z)
         (pairing Samples.table_typical "bayesian" "greedy") /\
  exists st,
    win_rate_section Samples.table_typical = Ok (Some st) /\
    p1_win_rate_decisive (max_row st) == maximum st.
Proof.
  assert (Hall : Forall (fun r => (0 < decisive_games r)%Z)
                   (pairing Samples.table_typical "bayesian" "greedy"))
    by (repeat constructor).
  assert (E : exists st, win_rate_section Samples.table_typical = Ok (Some st))
    by (eexists; reflexivity).
  split; [exact Hall | ].
  destruct E as [st E]. exists st. split; [exact E | ].
  exact (proj2 (highest_config_correct Samples.table_typical st E Hall)).
Defined.

End WinRateFacts.

(** ** The binomial test: symmetry and small samples *)

Module BinomSymmetry.
Import Binom.

Lemma choose_gt (n k : nat) : (n < k)%nat -> choose n k = 0%N.
Proof.
  revert k. induction n as [ | n IH]; intros [ | k] Hk; try lia; cbn [choose].
  - reflexivity.
  - rewrite !IH by lia. reflexivity.
Qed.

Lemma choose_diag (n : nat) : choose n n = 1%N.
Proof.
  induction n as [ | n IH]; cbn [choose]; [reflexivity | ].
  rewrite IH, choose_gt by lia. reflexivity.
Qed.

Lemma choose_sym (n k : nat) : (k <= n)%nat -> choose n k = choose n (n - k).
Proof.
  revert k. induction n as [ | n IH]; intros k Hk.
  - replace k with 0%nat by lia. reflexivity.
  - destruct k as [ | k].
    + rewrite Nat.sub_0_r, choose_diag. reflexivity.
    + cbn [Nat.sub]. destruct (Nat.eq_dec k n) as [-> | Hne].
      * rewrite Nat.sub_diag, choose_diag. reflexivity.
      * replace (n - k)%nat with (S (n - S k)) by lia.
        cbn [choose].
        rewrite (IH k) by lia. rewrite (IH (S k)) by lia.
        replace (n - k)%nat with (S (n - S k)) by lia.
        lia.
Qed.

Lemma pascal_next_length (row : list N) (p : N) :
  List.length (pascal_next p row) = S (List.length row).
Proof.
  revert p. induction row as [ | x tl IH]; intros p; cbn; [reflexivity | ].
  now rewrite IH.
Qed.

Lemma pascal_row_length (n : nat) : List.length (pascal_row n) = S n.
Proof.
  induction n as [ | n IH]; cbn [pascal_row]; [reflexivity | ].
  now rewrite pascal_next_length, IH.
Qed.

(** Each row reads the same in both directions. *)
Lemma pascal_row_rev (n : nat) : rev (pascal_row n) = pascal_row n.
Proof.
  apply (nth_ext _ _ 0%N 0%N).
  - apply length_rev.
  - intros i Hi. rewrite length_rev, pascal_row_length in Hi.
    rewrite rev_nth by (rewrite pascal_row_length; lia).
    rewrite pascal_row_length, !BinomFacts.pascal_row_choose.
    replace (S n - S i)%nat with (n - i)%nat by lia.
    symmetry. apply choose_sym. lia.
Qed.

Lemma sumN_app (l1 l2 : list N) : sumN (l1 ++ l2) = (sumN l1 + sumN l2)%N.
Proof.
  unfold sumN. induction l1 as [ | x l1 IH]; cbn [app fold_right]; [reflexivity | ].
  rewrite IH. lia.
Qed.

Lemma sumN_rev (l : list N) : sumN (rev l) = sumN l.
Proof.
  induction l as [ | x l IH]; cbn [rev]; [reflexivity | ].
  rewrite sumN_app, IH. unfold sumN. cbn. lia.
Qed.

(** At least [k] heads, or at least [n + 1 - k] heads: by symmetry the
    second event is "fewer than [k] heads". *)
Lemma upper_tail_complement (n k : nat) :
  (k <= S n)%nat ->
  (upper_tail n k + upper_tail n (S n - k) = 2 ^ N.of_nat n)%N.
Proof.
  intros Hk. unfold upper_tail.
  rewrite <- (BinomFacts.sumN_pascal_row n).
  rewrite <- (firstn_skipn k (pascal_row n)) at 3.
  rewrite sumN_app.
  assert (E : sumN (skipn (S n - k) (pascal_row n)) = sumN (firstn k (pascal_row n))).
  { rewrite <- (pascal_row_rev n) at 2.
    rewrite firstn_rev, sumN_rev, pascal_row_length. reflexivity. }
  rewrite E. lia.
Qed.

Lemma upper_tail_full (n : nat) : upper_tail n n = 1%N.
Proof.
  pose proof (upper_tail_complement n (S n) (Nat.le_refl _)) as H.
  rewrite Nat.sub_diag, BinomFacts.upper_tail_0 in H.
  pose proof (upper_tail_complement n n ltac:(lia)) as H'.
  replace (S n - n)%nat with 1%nat in H' by lia.
  assert (E1 : upper_tail n (S n) = 0%N) by lia.
  assert (E2 : (upper_tail n 1 + 1 = 2 ^ N.of_nat n)%N).
  { pose proof (BinomFacts.upper_tail_0 n) as H0. unfold upper_tail in *.
    cbn [skipn] in H0.
    destruct (pascal_row n) as [ | x tl] eqn:Er.
    - pose proof (pascal_row_length n) as Hl. rewrite Er in Hl. discriminate.
    - cbn [skipn]. pose proof (BinomFacts.pascal_row_choose n 0) as Hc.
      rewrite Er in Hc. cbn [nth] in Hc.
      assert (Hx : x = 1%N) by (rewrite Hc; destruct n; reflexivity).
      subst x. unfold sumN in *. cbn [fold_right] in H0. lia. }
  lia.
Qed.

Lemma pvalue_as_fraction (k n : nat) :
  pvalue k n == inject_Z (Z.of_N (upper_tail n k)) / inject_Z (Z.of_N (2 ^ N.of_nat n)).
Proof.
  unfold pvalue. rewrite N2Z.inj_pow, nat_N_Z. reflexivity.
Qed.

(** With no more wins than losses the p-value is at least one half. *)
Lemma pvalue_balanced (k n : nat) : (2 * k <= n)%nat -> 1 # 2 <= pvalue k n.
Proof.
  intros Hk. rewrite pvalue_as_fraction.
  pose proof (upper_tail_complement n k ltac:(lia)) as Hc.
  pose proof (BinomFacts.upper_tail_antitone n k (S n - k) ltac:(lia)) as Ha.
  set (T := upper_tail n k) in *. set (P := (2 ^ N.of_nat n)%N) in *.
  assert (HP : (0 < P)%N).
  { subst P. apply N.neq_0_lt_0, N.pow_nonzero. discriminate. }
  apply Qle_shift_div_l.
  - change 0 with (inject_Z 0). rewrite <- Zlt_Qlt. lia.
  - assert (H : inject_Z (Z.of_N P) <= 2 * inject_Z (Z.of_N T)).
    { change 2 with (inject_Z 2). rewrite <- inject_Z_mult, <- Zle_Qle. lia. }
    qlra.
Qed.


End BinomSymmetry.

(** ** res.py: the significance text *)

Module SignificanceFacts.
Import Report.

Lemma sig_text_of_plain (p : Q) : 0.05 <= p -> sig_text_of p = P_eq p.
Proof.
  intros Hp. unfold sig_text_of.
  threshold p 0.001; [qlra | ]. threshold p 0.01; [qlra | ].
  threshold p 0.05; [qlra | ]. reflexivity.
Qed.

Lemma sig_text_of_strongest (p : Q) : p < 0.001 -> sig_text_of p = P_lt_001.
Proof.
  intros Hp. unfold sig_text_of. threshold p 0.001; [reflexivity | qlra].
Qed.

(** A smaller p-value never gets a weaker text. *)
Lemma sig_rank_antitone (p p' : Q) :
  p <= p' -> (sig_rank (sig_text_of p') <= sig_rank (sig_text_of p))%nat.
Proof.
  intros Hp. unfold sig_text_of.
  threshold p 0.001; threshold p 0.01; threshold p 0.05;
    threshold p' 0.001; threshold p' 0.01; threshold p' 0.05;
    cbn [sig_rank]; try lia; qlra.
Qed.

(** X13: for a fixed number of decisive games, more wins never weaken the
    significance text: the text moves along "p = ...", "p < 0.05",
    "p < 0.01", "p < 0.001" in that order only. *)
Theorem significance_monotone (w1 w2 n : Z) :
  (1 <= n)%Z -> (0 <= w1)%Z -> (w1 <= w2)%Z -> (w2 <= n)%Z ->
  (sig_rank (significance w1 n) <= sig_rank (significance w2 n))%nat.
Proof.
  intros _ H0 H12 _. unfold significance, Binom.binomtest_greater.
  apply sig_rank_antitone, BinomFacts.pvalue_antitone.
  apply Z2Nat.inj_le; lia.
Qed.

Lemma significance_monotone_witness :
  (1 <= 100)%Z /\ (0 <= 55)%Z /\ (55 <= 60)%Z /\ (60 <= 100)%Z /\
  (sig_rank (significance 55 100) <= sig_rank (significance 60 100))%nat.
Proof.
  assert (Hn : (1 <= 100)%Z) by lia.
  assert (H0 : (0 <= 55)%Z) by lia.
  assert (H1 : (55 <= 60)%Z) by lia.
  assert (H2 : (60 <= 100)%Z) by lia.
  split; [exact Hn | split; [exact H0 | split; [exact H1 | split; [exact H2 | ]]]].
  exact (significance_monotone 55 60 100 Hn H0 H1 H2).
Defined.

(** X14: a first player who won no more decisive games than they lost is
    never reported as significant: the p-value is at least 0.5 and the
    text is the plain "p = ...". *)
Theorem significance_balanced (w n : Z) :
  (1 <= n)%Z -> (0 <= w)%Z -> (2 * w <= n)%Z ->
  exists p, significance w n = P_eq p /\ 1 # 2 <= p.
Proof.
  intros _ H0 Hw. unfold significance, Binom.binomtest_greater.
  assert (Hp : 1 # 2 <= Binom.pvalue (Z.to_nat w) (Z.to_nat n))
    by (apply BinomSymmetry.pvalue_balanced; lia).
  eexists. split; [ | exact Hp].
  apply sig_text_of_plain. qlra.
Qed.

Lemma significance_balanced_witness :
  (1 <= 100)%Z /\ (0 <= 50)%Z /\ (2 * 50 <= 100)%Z /\
  exists p, significance 50 100 = P_eq p /\ 1 # 2 <= p.
Proof.
  assert (Hn : (1 <= 100)%Z) by lia.
  assert (H0 : (0 <= 50)%Z) by lia.
  assert (H1 : (2 * 50 <= 100)%Z) by lia.
  split; [exact Hn | split; [exact H0 | split; [exact H1 | ]]].
  exact (significance_balanced 50 100 Hn H0 H1).
Defined.




(** X16: a clean sweep of ten decisive games or more is always reported
    as "p < 0.001". *)
Theorem significance_sweep (n : Z) :
  (10 <= n)%Z -> significance n n = P_lt_001.
Proof.
  intros Hn. unfold significance, Binom.binomtest_greater.
  apply sig_text_of_strongest.
  unfold Binom.pvalue. rewrite BinomSymmetry.upper_tail_full.
  rewrite Z2Nat.id by lia.
  assert (Hpow : (1024 <= 2 ^ n)%Z).
  { change 1024%Z with (2 ^ 10)%Z. apply Z.pow_le_mono_r; lia. }
  apply Qlt_shift_div_r.
  - change 0 with (inject_Z 0). rewrite <- Zlt_Qlt. lia.
  - apply Qlt_le_trans with (0.001 * inject_Z 1024); [reflexivity | ].
    apply Qmult_le_l; [reflexivity | ]. rewrite <- Zle_Qle. assumption.
Qed.

Lemma significance_sweep_witness :
  (10 <= 100)%Z /\ significance 100 100 = P_lt_001.
Proof.
  assert (H : (10 <= 100)%Z) by lia.
  split; [exact H | exact (significance_sweep 100 H)].
Defined.

End SignificanceFacts.

(** ** res.py: pooled results *)

Module PooledFacts.
Import Table Res.

Lemma inject_Z_nonzero (n : Z) : (0 < n)%Z -> ~ inject_Z n == 0.
Proof. intros Hn E. unfold Qeq in E. cbn in E. lia. Qed.

(** X17: the sentence printed after the pooled block says "100% win
    rate ... 0 losses" whatever the data.  The win rate computed two
    lines above it is 100 exactly when the second player has no win in
    any configuration of the pairing (given at least one decisive
    game). *)
Theorem pooled_win_rate_100 (df : DataFrame) (p1 p2 : string) :
  let rep := pooled df p1 p2 in
  (0 < total_decisive rep)%Z ->
  (Float64.is_value (win_rate rep) 100 <-> total_p2_wins rep = 0%Z).
Proof.
  cbn zeta. unfold pooled. cbn [total_decisive win_rate total_p2_wins].
  set (w := column_sum p1_wins (pairing df p1 p2)).
  set (l := column_sum p2_wins (pairing df p1 p2)).
  intros Hn. rewrite ResFacts.pct_of_pos by assumption.
  cbn [Float64.is_value]. change (inject_Z 100) with 100.
  pose proof (inject_Z_nonzero _ Hn) as Hnz.
  split.
  - intros H.
    assert (Hx : inject_Z w / inject_Z (w + l) == 1).
    { set (x := inject_Z w / inject_Z (w + l)) in *. qlra. }
    assert (Hw : inject_Z w == inject_Z (w + l)).
    { rewrite <- (Qmult_div_r (inject_Z w) (inject_Z (w + l))) by assumption.
      rewrite Hx. ring. }
    unfold Qeq in Hw. cbn in Hw. lia.
  - intros Hl. rewrite Hl, Z.add_0_r in *. field. assumption.
Qed.

Lemma pooled_win_rate_100_witness :
  (0 < total_decisive (bayesian_vs_pure_random Samples.table_typical))%Z /\
  total_p2_wins (bayesian_vs_pure_random Samples.table_typical) = 0%Z /\
  Float64.is_value (win_rate (bayesian_vs_pure_random Samples.table_typical)) 100.
Proof.
  assert (Hn : (0 < total_decisive (bayesian_vs_pure_random Samples.table_typical))%Z)
    by reflexivity.
  assert (Hl : total_p2_wins (bayesian_vs_pure_random Samples.table_typical) = 0%Z)
    by reflexivity.
  split; [exact Hn | split; [exact Hl | ]].
  exact (proj2 (pooled_win_rate_100 Samples.table_typical "bayesian" "pure_random" Hn) Hl).
Defined.

End PooledFacts.

(** ** plots.py: Figure 2, Figure S1 and Figure S3 *)

Module ChartsFacts.
Import Table Charts.

(** *** Bar colours *)

Ltac kinds p1 p2 :=
  destruct (py_in p1 strategic), (py_in p2 strategic),
           (py_in p1 baseline), (py_in p2 baseline).

(** Every key the classification can produce is in [COLORS]. *)
Lemma bar_color_found (p1 p2 : string) : exists c, bar_color p1 p2 = Some c.
Proof.
  unfold bar_color, color_key. kinds p1 p2; cbn; eexists; reflexivity.
Qed.

(** X19: the colour of a bar does not depend on which of the two agents
    is player one, the lookup in [COLORS] never fails, and the bar has the
    'strategic' colour exactly when both agents are strategic ones. *)
Theorem bar_color_symmetric (p1 p2 : string) :
  color_key p1 p2 = color_key p2 p1 /\
  (exists c, bar_color p1 p2 = Some c) /\
  (color_key p1 p2 = "strategic" <->
     py_in p1 strategic = true /\ py_in p2 strategic = true).
Proof.
  unfold bar_color, color_key.
  kinds p1 p2; cbn; repeat split; try (intros [? ?]); try discriminate;
    try reflexivity; eexists; reflexivity.
Qed.

Lemma bar_colors_of_length (configs : list (string * string)) :
  exists cs, bar_colors_of configs = Some cs /\ List.length cs = List.length configs.
Proof.
  unfold bar_colors_of.
  induction configs as [ | [p1 p2] configs (cs & E & Hlen)]; cbn [map all_some fst snd].
  - exists []. split; reflexivity.
  - destruct (bar_color_found p1 p2) as (c & Ec).
    rewrite Ec, E. exists (c :: cs). cbn. split; [reflexivity | now rewrite Hlen].
Qed.

(** *** The loops of Figure 2 *)

Lemma fold_draw_rates (neither : DataFrame) (configs : list (string * string))
    (rates : list Q) (out : list line) :
  fold_left (draw_rates_step neither) configs (rates, out) =
    (rates ++ map (first_or_zero draw_pct neither) configs,
     out ++ map (fun p => Warning (fst p) (snd p)) (filter (absent neither) configs)).
Proof.
  revert rates out.
  induction configs as [ | [p1 p2] configs IH]; intros rates out;
    cbn [fold_left map filter].
  - now rewrite !app_nil_r.
  - assert (Hs : draw_rates_step neither (rates, out) (p1, p2) =
                   match pairing neither p1 p2 with
                   | r :: _ => (rates ++ [draw_pct r], out)
                   | [] => (rates ++ [0], out ++ [Warning p1 p2])
                   end) by reflexivity.
    assert (Hf : first_or_zero draw_pct neither (p1, p2) =
                   match pairing neither p1 p2 with
                   | r :: _ => draw_pct r
                   | [] => 0
                   end) by reflexivity.
    assert (Ha : absent neither (p1, p2) =
                   match pairing neither p1 p2 with
                   | [] => true
                   | _ :: _ => false
                   end) by reflexivity.
    rewrite Hs, Hf, Ha.
    destruct (pairing neither p1 p2) as [ | r rest]; rewrite IH; cbn [map fst snd];
      rewrite <- ?app_assoc; reflexivity.
Qed.

Lemma fold_overlap_rates (neither : DataFrame) (configs : list (string * string))
    (rates : list Q) :
  fold_left (overlap_rates_step neither) configs rates =
    rates ++ map (first_or_zero draw_pattern_overlap_pct neither) configs.
Proof.
  revert rates.
  induction configs as [ | [p1 p2] configs IH]; intros rates; cbn [fold_left map].
  - now rewrite app_nil_r.
  - assert (Hs : overlap_rates_step neither rates (p1, p2) =
                   match pairing neither p1 p2 with
                   | r :: _ => rates ++ [draw_pattern_overlap_pct r]
                   | [] => rates ++ [0]
                   end) by reflexivity.
    assert (Hf : first_or_zero draw_pattern_overlap_pct neither (p1, p2) =
                   match pairing neither p1 p2 with
                   | r :: _ => draw_pattern_overlap_pct r
                   | [] => 0
                   end) by reflexivity.
    rewrite Hs, Hf.
    destruct (pairing neither p1 p2) as [ | r rest]; rewrite IH;
      rewrite <- ?app_assoc; reflexivity.
Qed.

(** X20: the series of Figure 2 line up with the pairings, whatever the
    table holds.  Bar [i] of panel A is the draw rate of the first row of
    pairing [i], or 0 if it has none; panel B likewise with the pattern
    overlap; panel A prints one warning per pairing without a row, in the
    order of the pairings, and nothing else; and there are as many
    colours as pairings. *)
Theorem figure2_series_aligned (neither : DataFrame) (configs : list (string * string)) :
  fst (draw_rates_loop neither configs) = map (first_or_zero draw_pct neither) configs /\
  snd (draw_rates_loop neither configs) =
    map (fun p => Warning (fst p) (snd p)) (filter (absent neither) configs) /\
  overlap_rates_loop neither configs =
    map (first_or_zero draw_pattern_overlap_pct neither) configs /\
  exists cs, bar_colors_of configs = Some cs /\ List.length cs = List.length configs.
Proof.
  unfold draw_rates_loop, overlap_rates_loop.
  rewrite fold_draw_rates, fold_overlap_rates. cbn [fst snd app].
  repeat split. apply bar_colors_of_length.
Qed.

(** The nine labels of the x axis have their nine bars and colours. *)
Example figure2_nine_bars (neither : DataFrame) :
  List.length (fst (draw_rates_loop neither all_pairing_configs)) =
    List.length all_pairings_labels /\
  List.length (overlap_rates_loop neither all_pairing_configs) =
    List.length all_pairings_labels /\
  option_map (@List.length string) bar_colors = Some (List.length all_pairings_labels).
Proof.
  unfold draw_rates_loop, overlap_rates_loop.
  rewrite fold_draw_rates, fold_overlap_rates. cbn [fst app].
  rewrite !length_map. repeat split.
Qed.

(** *** Figure S1 *)

Lemma series_mean_finite (col : list Q) :
  col <> [] -> exists q, series_mean col = Float64.Finite q.
Proof. destruct col; [congruence | eexists; reflexivity]. Qed.

(** X21: a line of Figure S1 is always well formed.  The lookup of the
    x positions never meets a missing key; the positions are strictly
    increasing and lie between 0 and 3; there is one mean draw rate per
    position, and each is a number (the mean is only taken over
    configurations that have rows). *)
Theorem nervousness_line_wellformed (df : DataFrame) (p1 p2 : string) :
  exists x_vals draw_pcts,
    nervousness_line df p1 p2 = Some (x_vals, draw_pcts) /\
    List.length x_vals = List.length draw_pcts /\
    StronglySorted Z.lt x_vals /\
    Forall (fun x => (0 <= x <= 3)%Z) x_vals /\
    Forall (fun v => exists q, v = Float64.Finite q) draw_pcts.
Proof.
  unfold nervousness_line, nervousness_configs.
  set (pairing_data := pairing df p1 p2).
  cbn [fold_left]. unfold nervousness_step.
  destruct (filter (fun r => (config_name r =? "neither")%string) pairing_data)
    as [ | r1 l1];
  destruct (filter (fun r => (config_name r =? "p1_only")%string) pairing_data)
    as [ | r2 l2];
  destruct (filter (fun r => (config_name r =? "p2_only")%string) pairing_data)
    as [ | r3 l3];
  destruct (filter (fun r => (config_name r =? "both")%string) pairing_data)
    as [ | r4 l4];
  cbn [app map all_some option_map];
  do 2 eexists; (split; [reflexivity | ]);
  (split; [reflexivity | ]);
  (split; [repeat constructor | ]);
  (split; [repeat constructor; discriminate | ]);
  repeat constructor; apply series_mean_finite; discriminate.
Qed.

(** *** Figure S3 *)

Lemma fold_reshuffle (neither : DataFrame) (configs : list (string * string))
    (bars : list stacked_bar) :
  fold_left (reshuffle_step neither) configs bars =
    bars ++ map (fun p => match pairing neither (fst p) (snd p) with
                          | r :: _ => reshuffle_bar r
                          | [] => zero_bar
                          end) configs.
Proof.
  revert bars.
  induction configs as [ | [p1 p2] configs IH]; intros bars; cbn [fold_left map fst snd].
  - now rewrite app_nil_r.
  - assert (Hs : reshuffle_step neither bars (p1, p2) =
                   match pairing neither p1 p2 with
                   | r :: _ => bars ++ [reshuffle_bar r]
                   | [] => bars ++ [zero_bar]
                   end) by reflexivity.
    rewrite Hs.
    destruct (pairing neither p1 p2) as [ | r rest]; rewrite IH;
      rewrite <- ?app_assoc; reflexivity.
Qed.

(** X23: Figure S3 has one stacked bar per pairing, in the order of the
    pairings: the bar of the first row of the pairing, or three zeros
    when the pairing has no row (no warning is printed by this loop). *)
Theorem reshuffle_loop_aligned (neither : DataFrame) (configs : list (string * string)) :
  reshuffle_loop neither configs =
    map (fun p => match pairing neither (fst p) (snd p) with
                  | r :: _ => reshuffle_bar r
                  | [] => zero_bar
                  end) configs /\
  List.length (reshuffle_loop neither configs) = List.length configs.
Proof.
  unfold reshuffle_loop. rewrite fold_reshuffle. cbn [app].
  split; [reflexivity | apply length_map].
Qed.

End ChartsFacts.

(** ** plots.py, Figure 1: more on the error bars *)

Module ErrorBarFacts.
Import Plots.

Open Scope R_scope.

Lemma sqrt_quarter : sqrt (1 / 4) = 1 / 2.
Proof.
  replace (1 / 4) with ((1 / 2) * (1 / 2)) by rlra.
  apply sqrt_square. rlra.
Qed.

Lemma Q2R_percentage (rate : Q) :
  (0 <= rate)%Q -> (rate <= 100)%Q -> 0 <= Q2R rate / 100 <= 1.
Proof.
  intros H0 H1. apply Qle_Rle in H0, H1.
  replace (Q2R 0) with 0 in H0 by (unfold Q2R; cbn; rlra).
  replace (Q2R 100) with 100 in H1 by (unfold Q2R; cbn; rlra).
  rlra.
Qed.

(** X24: the error bar is never negative and never longer than
    100 / sqrt(n) percentage points, for a win rate between 0 and 100 and
    n > 0 decisive games; in particular it is at most 100.  (The formula
    itself peaks at 98 / sqrt(n); the bound stated leaves room for the
    rounding of the float64 operations.) *)
Theorem error_bar_bound (rate : Q) (n : Z) :
  (0 <= rate)%Q -> (rate <= 100)%Q -> (0 < n)%Z ->
  0 <= error_bar rate n /\
  error_bar rate n <= 100 / sqrt (IZR n) /\
  error_bar rate n <= 100.
Proof.
  intros H0 H1 Hn.
  rewrite PlotsFacts.error_bar_games by assumption. unfold ci95.
  destruct (Q2R_percentage rate H0 H1) as [Hp0 Hp1].
  set (p := Q2R rate / 100) in *.
  assert (HN : 1 <= IZR n) by (apply IZR_le; lia).
  assert (Hx0 : 0 <= p * (1 - p)) by nra.
  assert (Hx1 : p * (1 - p) <= 1 / 4).
  { pose proof (Rle_0_sqr (p - 1 / 2)) as Hsq. unfold Rsqr in Hsq. rlra. }
  assert (Hs0 : 0 <= sqrt (p * (1 - p) / IZR n)) by apply sqrt_pos.
  assert (HsN : 1 <= sqrt (IZR n)).
  { rewrite <- sqrt_1. apply sqrt_le_1_alt. assumption. }
  assert (Hs1 : sqrt (p * (1 - p) / IZR n) <= (1 / 2) / sqrt (IZR n)).
  { rewrite sqrt_div by rlra.
    apply Rmult_le_compat_r.
    - apply Rlt_le, Rinv_0_lt_compat. rlra.
    - rewrite <- sqrt_quarter. apply sqrt_le_1_alt. assumption. }
  assert (Hhalf : (1 / 2) / sqrt (IZR n) <= 1 / 2).
  { assert (Hinv : / sqrt (IZR n) <= 1).
    { rewrite <- Rinv_1. apply Rinv_le_contravar; rlra. }
    unfold Rdiv at 1. rlra. }
  repeat split.
  - rlra.
  - unfold Rdiv in *. rlra.
  - rlra.
Qed.

Lemma error_bar_bound_witness :
  (0 <= 55)%Q /\ (55 <= 100)%Q /\ (0 < 100)%Z /\
  error_bar 55 100 <= 100 / sqrt (IZR 100).
Proof.
  assert (H0 : (0 <= 55)%Q) by discriminate.
  assert (H1 : (55 <= 100)%Q) by discriminate.
  assert (Hn : (0 < 100)%Z) by reflexivity.
  split; [exact H0 | split; [exact H1 | split; [exact Hn | ]]].
  exact (proj1 (proj2 (error_bar_bound 55 100 H0 H1 Hn))).
Defined.

End ErrorBarFacts.

(** ** viz.py: the heatmap and the means *)

Module HistogramFacts.
Import Viz Summary Histograms.

(** *** Bins *)

Ltac compare_edges :=
  repeat match goal with
  | |- context [Qle_bool ?a ?b] =>
      destruct (Qle_bool_reflect a b); try (exfalso; qlra)
  | |- context [Qlt_bool ?a ?b] =>
      destruct (Qlt_bool_reflect a b); try (exfalso; qlra)
  end;
  cbn [andb].

(** The bin of a value among the eleven edges 0, 10, ..., 100. *)
Lemma bin_of_spec (v : Q) :
  match bin_of x_bins v with
  | Some a => (a < 10)%nat /\ 0 <= v /\ v <= 100 /\ ((7 <= a)%nat <-> 70 <= v)
  | None => v < 0 \/ 100 < v
  end.
Proof.
  unfold bin_of, x_bins. cbn [search].
  compare_edges;
    try (repeat split; intros; solve [lia | qlra]);
    solve [left; qlra | right; qlra].
Qed.

(** *** Sums over cells *)

Lemma sum_over_cons_row (cells : list (nat * nat)) (m : nat -> nat -> DrawDetailRow -> bool)
    (r : DrawDetailRow) (df : DataFrame) :
  sum_over cells (fun i j => mask_sum (m i j) (r :: df)) =
    (sum_over cells (fun i j => Z.b2z (m i j r)) +
     sum_over cells (fun i j => mask_sum (m i j) df))%Z.
Proof.
  unfold sum_over. induction cells as [ | c cells IH]; cbn [fold_right]; [reflexivity | ].
  rewrite IH. cbn [mask_sum fold_right]. fold (mask_sum (m (fst c) (snd c)) df). lia.
Qed.

Lemma sum_over_nil_rows (cells : list (nat * nat)) (m : nat -> nat -> DrawDetailRow -> bool) :
  sum_over cells (fun i j => mask_sum (m i j) []) = 0%Z.
Proof.
  unfold sum_over. induction cells as [ | c cells IH]; cbn [fold_right]; [reflexivity | ].
  rewrite IH. reflexivity.
Qed.

Lemma sum_over_zero (cells : list (nat * nat)) :
  sum_over cells (fun _ _ => 0%Z) = 0%Z.
Proof.
  unfold sum_over. induction cells as [ | c cells IH]; cbn [fold_right]; [reflexivity | ].
  now rewrite IH.
Qed.

Ltac enumerate a :=
  let H := fresh "H" in
  assert (H : (a = 0 \/ a = 1 \/ a = 2 \/ a = 3 \/ a = 4 \/
               a = 5 \/ a = 6 \/ a = 7 \/ a = 8 \/ a = 9)%nat) by lia;
  repeat destruct H as [H | H]; subst a.

(** A pair of bins is one cell of the grid. *)
Lemma one_cell (a b : nat) :
  (a < 10)%nat -> (b < 10)%nat ->
  sum_over all_cells (fun i j => Z.b2z ((a =? i)%nat && (b =? j)%nat)) = 1%Z.
Proof.
  intros Ha Hb. enumerate a; enumerate b; reflexivity.
Qed.

Lemma one_high_cell (a b : nat) :
  (a < 10)%nat -> (b < 10)%nat ->
  sum_over high_cells (fun i j => Z.b2z ((a =? i)%nat && (b =? j)%nat)) =
    Z.b2z ((7 <=? a)%nat && (7 <=? b)%nat).
Proof.
  intros Ha Hb. enumerate a; enumerate b; reflexivity.
Qed.

Lemma row_in_one_cell (r : DrawDetailRow) :
  sum_over all_cells (fun i j => Z.b2z (in_cell i j r)) = Z.b2z (in_range r).
Proof.
  unfold in_cell, in_range, y_bins.
  pose proof (bin_of_spec (player_progress r)) as Hp.
  pose proof (bin_of_spec (opponent_progress r)) as Ho.
  destruct (bin_of x_bins (player_progress r)) as [a | ];
    destruct (bin_of x_bins (opponent_progress r)) as [b | ];
    try apply sum_over_zero.
  apply one_cell; tauto.
Qed.

Lemma in_range_iff (r : DrawDetailRow) :
  in_range r = true <->
  is_percentage (player_progress r) /\ is_percentage (opponent_progress r).
Proof.
  unfold in_range, y_bins, is_percentage.
  pose proof (bin_of_spec (player_progress r)) as Hp.
  pose proof (bin_of_spec (opponent_progress r)) as Ho.
  destruct (bin_of x_bins (player_progress r)) as [a | ];
    destruct (bin_of x_bins (opponent_progress r)) as [b | ];
    split; try discriminate; try tauto;
    intros [[? ?] [? ?]]; exfalso;
    repeat match goal with H : _ \/ _ |- _ => destruct H end; qlra.
Qed.

Lemma row_in_high_cell (r : DrawDetailRow) :
  in_range r = true ->
  sum_over high_cells (fun i j => Z.b2z (in_cell i j r)) = Z.b2z (is_both_high r).
Proof.
  unfold in_cell, in_range, is_both_high, y_bins.
  pose proof (bin_of_spec (player_progress r)) as Hp.
  pose proof (bin_of_spec (opponent_progress r)) as Ho.
  destruct (bin_of x_bins (player_progress r)) as [a | ]; [ | discriminate].
  destruct (bin_of x_bins (opponent_progress r)) as [b | ]; [ | discriminate].
  intros _. destruct Hp as (Ha & _ & _ & Hpa). destruct Ho as (Hb & _ & _ & Hob).
  rewrite one_high_cell by assumption.
  unfold Qge_bool.
  destruct (Qle_bool_reflect 70 (player_progress r));
    destruct (Qle_bool_reflect 70 (opponent_progress r));
    destruct (Nat.leb_spec 7 a); destruct (Nat.leb_spec 7 b);
    cbn [andb Z.b2z]; try reflexivity; exfalso; intuition lia.
Qed.

Lemma mask_sum_all (f : DrawDetailRow -> bool) (df : DataFrame) :
  Forall (fun r => f r = true) df -> mask_sum f df = len df.
Proof.
  induction 1 as [ | r df Hr _ IH].
  - reflexivity.
  - rewrite VizFacts.len_cons. cbn [mask_sum fold_right]. fold (mask_sum f df).
    rewrite IH, Hr. reflexivity.
Qed.

(** X26: every drawn game whose two progress values lie in [0,100] is
    counted in exactly one of the hundred cells of the heatmap (a value of
    exactly 100 goes to the last bin), and a game with a value outside is
    counted in none: the cell counts add up to the number of games in
    range, which is the number of rows when the whole table is in
    range. *)
Theorem heatmap_total (df : DataFrame) :
  sum_over all_cells (hist df) = mask_sum in_range df /\
  (Forall (fun r => is_percentage (player_progress r) /\
                    is_percentage (opponent_progress r)) df ->
   sum_over all_cells (hist df) = len df).
Proof.
  assert (Htotal : sum_over all_cells (hist df) = mask_sum in_range df).
  { unfold hist. induction df as [ | r df IH].
    - apply sum_over_nil_rows.
    - rewrite sum_over_cons_row, IH, row_in_one_cell. reflexivity. }
  split; [exact Htotal | ].
  intros Hall. rewrite Htotal. apply mask_sum_all.
  revert Hall. apply Forall_impl. intros r Hr. now apply in_range_iff.
Qed.

Lemma heatmap_total_witness :
  Forall (fun r => is_percentage (player_progress r) /\
                   is_percentage (opponent_progress r)) Samples.three_draws /\
  sum_over all_cells (hist Samples.three_draws) = 3%Z.
Proof.
  assert (H : Forall (fun r => is_percentage (player_progress r) /\
                               is_percentage (opponent_progress r)) Samples.three_draws).
  { repeat constructor; discriminate. }
  split; [exact H | ].
  exact (proj2 (heatmap_total Samples.three_draws) H).
Defined.

(** X27: the 70% lines drawn across the heatmap run along bin edges:
    for a table whose progress values lie in [0,100], the nine cells at or
    beyond both lines hold exactly the "Both High" games of the summary. *)
Theorem heatmap_high_quadrant (df : DataFrame) :
  Forall (fun r => is_percentage (player_progress r) /\
                   is_percentage (opponent_progress r)) df ->
  sum_over high_cells (hist df) = both_high df.
Proof.
  intros Hall. unfold hist, both_high.
  induction Hall as [ | r df Hr _ IH].
  - apply sum_over_nil_rows.
  - rewrite sum_over_cons_row, IH, row_in_high_cell by now apply in_range_iff.
    reflexivity.
Qed.

Lemma heatmap_high_quadrant_witness :
  Forall (fun r => is_percentage (player_progress r) /\
                   is_percentage (opponent_progress r)) Samples.three_draws /\
  sum_over high_cells (hist Samples.three_draws) = 1%Z.
Proof.
  assert (H : Forall (fun r => is_percentage (player_progress r) /\
                               is_percentage (opponent_progress r)) Samples.three_draws).
  { repeat constructor; discriminate. }
  split; [exact H | ].
  exact (heatmap_high_quadrant Samples.three_draws H).
Defined.

(** *** Means *)

Lemma series_mean_map {A : Type} (f : A -> Q) (l : list A) :
  l <> [] ->
  Charts.series_mean (map f l) =
    Float64.Finite (fold_right Qplus 0 (map f l) / inject_Z (Z.of_nat (List.length l))).
Proof.
  destruct l as [ | x tl]; [congruence | ]. intros _.
  cbn [map Charts.series_mean List.length]. now rewrite length_map.
Qed.

Lemma sum_abs_diff (df : DataFrame) :
  Qabs (fold_right Qplus 0 (map progress_diff df)) <=
    fold_right Qplus 0 (map progress_diff_abs df).
Proof.
  induction df as [ | r df IH]; cbn [map fold_right].
  - discriminate.
  - eapply Qle_trans; [apply Qabs_triangle | ].
    unfold progress_diff_abs at 1, progress_diff at 1.
    apply Qplus_le_r. exact IH.
Qed.

(** X28: on any table with rows the "Mean" of the difference histogram
    and the "Average Progress Difference" of the summary are numbers, and
    the first never exceeds the second in absolute value: a mean signed
    difference cannot be larger than the mean absolute difference. *)
Theorem progress_means_consistent (df : DataFrame) :
  df <> [] ->
  exists d m,
    progress_diff_mean df = Float64.Finite d /\
    abs_diff_mean df = Float64.Finite m /\
    Qabs d <= m.
Proof.
  intros Hdf.
  unfold progress_diff_mean, abs_diff_mean.
  rewrite !series_mean_map by assumption.
  do 2 eexists. repeat (split; [reflexivity | ]).
  set (L := inject_Z (Z.of_nat (List.length df))).
  assert (HL : 0 < L).
  { subst L. change 0 with (inject_Z 0). rewrite <- Zlt_Qlt.
    destruct df; [congruence | cbn [List.length]; lia]. }
  assert (Hnz : ~ L == 0) by (intros E; rewrite E in HL; discriminate).
  unfold Qdiv. rewrite Qabs_Qmult.
  rewrite (Qabs_pos (/ L)) by (apply Qlt_le_weak, Qinv_lt_0_compat; assumption).
  apply Qmult_le_compat_r; [apply sum_abs_diff | ].
  apply Qlt_le_weak, Qinv_lt_0_compat. assumption.
Qed.

Lemma progress_means_consistent_witness :
  Samples.three_draws <> [] /\
  exists d m,
    progress_diff_mean Samples.three_draws = Float64.Finite d /\
    abs_diff_mean Samples.three_draws = Float64.Finite m /\
    Qabs d <= m.
Proof.
  assert (Hdf : Samples.three_draws <> []) by discriminate.
  split; [exact Hdf | ].
  exact (progress_means_consistent Samples.three_draws Hdf).
Defined.

End HistogramFacts.
